(** * download_attention: a shallow embedding of [data/download_attention.py]

    The script fetches a catalog of files from the Figshare API, keeps the
    attention fMRI files of the requested subjects, downloads each one to a
    flat file [S*_attention.h5], checks its MD5, prunes the destination
    directory and writes a manifest.

    Python strings are modelled by [string] (ASCII text: the case mappings,
    the whitespace class and the digit class are those of ASCII), dicts used
    as records of the remote API by [gmap string value], the destination
    directory by [gmap string node], and the effects of [main] (file system,
    standard output, HTTP requests, exceptions) by a state and error monad
    over [world]. *)

From Stdlib Require Import String Ascii ZArith List DecimalString.
From stdpp Require Import gmap strings list fin_maps sorting.

Open Scope string_scope.
Open Scope list_scope.

#[local] Set Warnings "-clear-no-such-hyp".

(** ** Python string operations *)

Module Py.

Definition code (c : ascii) : nat := nat_of_ascii c.

Definition between (lo hi : nat) (c : ascii) : bool :=
  (lo <=? code c)%nat && (code c <=? hi)%nat.

Definition is_upper : ascii -> bool := between 65 90.
Definition is_lower : ascii -> bool := between 97 122.
Definition is_digit : ascii -> bool := between 48 57.

(** [str.isspace] on ASCII: TAB, LF, VT, FF, CR, FS, GS, RS, US, SPACE. *)
Definition is_space (c : ascii) : bool :=
  between 9 13 c || between 28 32 c.

Definition lower_char (c : ascii) : ascii :=
  if is_upper c then ascii_of_nat (code c + 32) else c.

Definition upper_char (c : ascii) : ascii :=
  if is_lower c then ascii_of_nat (code c - 32) else c.

Fixpoint map_chars (f : ascii -> ascii) (s : string) : string :=
  match s with
  | EmptyString => EmptyString
  | String c r => String (f c) (map_chars f r)
  end.

(** [s.isascii()] *)
Fixpoint isascii (s : string) : bool :=
  match s with
  | EmptyString => true
  | String c r => (code c <? 128)%nat && isascii r
  end.

(** [s.lower()] and [s.upper()] *)
Definition lower : string -> string := map_chars lower_char.
Definition upper : string -> string := map_chars upper_char.

Fixpoint lstrip (s : string) : string :=
  match s with
  | EmptyString => EmptyString
  | String c r => if is_space c then lstrip r else s
  end.

Fixpoint rev_onto (s acc : string) : string :=
  match s with
  | EmptyString => acc
  | String c r => rev_onto r (String c acc)
  end.

Definition reverse (s : string) : string := rev_onto s EmptyString.

Definition rstrip (s : string) : string := reverse (lstrip (reverse s)).

(** [s.strip()] *)
Definition strip (s : string) : string := rstrip (lstrip s).

(** [s.startswith(p)] *)
Fixpoint startswith (s p : string) : bool :=
  match p, s with
  | EmptyString, _ => true
  | String _ _, EmptyString => false
  | String a p', String b s' => if Ascii.eqb a b then startswith s' p' else false
  end.

(** [s.endswith(p)] *)
Definition endswith (s p : string) : bool :=
  startswith (reverse s) (reverse p).

(** [p in s] *)
Fixpoint contains (p s : string) : bool :=
  startswith s p ||
  match s with
  | EmptyString => false
  | String _ r => contains p r
  end.

Fixpoint drop (n : nat) (s : string) : string :=
  match n, s with
  | O, _ => s
  | S _, EmptyString => EmptyString
  | S n', String _ r => drop n' r
  end.

Fixpoint take (n : nat) (s : string) : string :=
  match n, s with
  | O, _ => EmptyString
  | S _, EmptyString => EmptyString
  | S n', String c r => String c (take n' r)
  end.

Definition digit_val (c : ascii) : nat := code c - 48.

(** [int(s)] on a string of decimal digits *)
Definition int_of_digits (s : string) : nat :=
  fold_left (fun acc c => 10 * acc + digit_val c) (list_ascii_of_string s) 0.

Definition digit_char (d : nat) : ascii := ascii_of_nat (48 + d).

Fixpoint decimal_fuel (fuel n : nat) (acc : string) : string :=
  match fuel with
  | O => acc
  | S fuel' =>
      let acc' := String (digit_char (n mod 10)) acc in
      if (n <? 10)%nat then acc' else decimal_fuel fuel' (n / 10) acc'
  end.

(** [str(n)] for a natural number *)
Definition decimal (n : nat) : string := decimal_fuel (S n) n EmptyString.

(** the format specification [{n:02d}] *)
Definition fmt_02d (n : nat) : string :=
  if (n <? 10)%nat then String "0" (decimal n) else decimal n.

End Py.

(** ** Python values, dicts and exceptions *)

(** The values the remote API puts in the fields of a file descriptor: a JSON
    string, or [null]; [VNone] is also what [dict.get] gives for a missing
    key. *)
Inductive value : Type :=
| VNone
| VStr (s : string).

#[global] Instance value_eq_dec : EqDecision value.
Proof. solve_decision. Defined.

(** truth value of a Python object: [None] and [""] are false *)
Definition truthy (v : value) : bool :=
  match v with
  | VNone => false
  | VStr s => negb (String.eqb s "")
  end.

(** [a or b] *)
Definition py_or (a b : value) : value := if truthy a then a else b.

(** [str(v)], as f-strings and [print] render a value *)
Definition py_str (v : value) : string :=
  match v with
  | VNone => "None"
  | VStr s => s
  end.

(** [repr(v)] for a string without quotes or escapes, and for [None] *)
Definition py_repr (v : value) : string :=
  match v with
  | VNone => "None"
  | VStr s => "'" +:+ s +:+ "'"
  end.

Inductive exn : Type :=
| KeyError (key : string)
| ValueError (msg : string)
| TypeError (msg : string)
| URLError (url : string)
| FileNotFoundError (path : string)
| IsADirectoryError (path : string)
| PermissionError (path : string).

Inductive result (A : Type) : Type :=
| Ok (a : A)
| Raise (e : exn).

Arguments Ok {A} a.
Arguments Raise {A} e.

(** a dict literal with its insertion order *)
Fixpoint dict_get {V : Type} (d : list (string * V)) (k : string) : option V :=
  match d with
  | [] => None
  | (k', v) :: rest => if String.eqb k' k then Some v else dict_get rest k
  end.

Definition dict_keys {V : Type} (d : list (string * V)) : list string := d.*1.

(** ** Subject codes *)

Definition S_TO_SUB : list (string * string) :=
  [("S1", "sub-06"); ("S2", "sub-07"); ("S3", "sub-04"); ("S4", "sub-01")].

(** [{v:k for k,v in S_TO_SUB.items()}] *)
Definition SUB_TO_S : list (string * string) :=
  map (fun kv => (kv.2, kv.1)) S_TO_SUB.

(** The regular expression [sub[-_]?0?([1-9]\d?)], matched at the head of a
    string; the result is the text of group 1. The optional items are greedy
    and give the item back when the rest fails, as the [re] engine does. *)
Module Re.

Definition is_sep (c : ascii) : bool :=
  Ascii.eqb c "-" || Ascii.eqb c "_".

Definition is_19 (c : ascii) : bool := Py.between 49 57 c.

Definition orelse {A : Type} (a b : option A) : option A :=
  match a with
  | Some _ => a
  | None => b
  end.

(** [([1-9]\d?)] *)
Definition group (s : string) : option string :=
  match s with
  | String c r =>
      if is_19 c then
        match r with
        | String d _ =>
            if Py.is_digit d then Some (String c (String d EmptyString))
            else Some (String c EmptyString)
        | EmptyString => Some (String c EmptyString)
        end
      else None
  | EmptyString => None
  end.

(** [0?([1-9]\d?)] *)
Definition zero_group (s : string) : option string :=
  match s with
  | String c r => if Ascii.eqb c "0" then orelse (group r) (group s) else group s
  | EmptyString => group s
  end.

(** [[-_]?0?([1-9]\d?)] *)
Definition sep_zero_group (s : string) : option string :=
  match s with
  | String c r =>
      if is_sep c then orelse (zero_group r) (zero_group s) else zero_group s
  | EmptyString => zero_group s
  end.

Definition match_here (s : string) : option string :=
  if Py.startswith s "sub" then sep_zero_group (Py.drop 3 s) else None.

(** [re.search]: the leftmost position where the pattern matches *)
Fixpoint search (s : string) : option string :=
  match match_here s with
  | Some g => Some g
  | None =>
      match s with
      | EmptyString => None
      | String _ r => search r
      end
  end.

End Re.

Definition _normalize_sub_code (s : string) : option string :=
  let s := Py.lower (Py.strip s) in
  match Re.search s with
  | None => None
  | Some g =>
      let n := Py.int_of_digits g in
      if bool_decide (n ∈ [1; 4; 6; 7]) then Some ("sub-" +:+ Py.fmt_02d n) else None
  end.

Definition looks_like_attention_fmri (name : string) : bool :=
  let lo := Py.lower name in
  Py.endswith lo ".h5" && Py.contains "attention" lo && Py.contains "vc" lo.

(** the order of [sorted] on strings: lexicographic on character codes *)
Definition str_le (s t : string) : Prop := String.leb s t = true.

#[global] Instance str_le_dec : RelDecision str_le.
Proof. intros s t. unfold str_le. apply _. Defined.

Definition sorted (out : gset string) : list string :=
  merge_sort str_le (elements out).

(** [if sub:] on an optional string *)
Definition nonempty (o : option string) : option string :=
  match o with
  | Some t => if String.eqb t "" then None else Some t
  | None => None
  end.

(** the loop of [select_subjects]; [out] is the set built so far *)
Fixpoint select_loop (specs : list string) (out : gset string) : result (gset string) :=
  match specs with
  | [] => Ok out
  | s :: rest =>
      match dict_get S_TO_SUB (Py.upper s) with
      | Some sub => select_loop rest (out ∪ {[sub]})
      | None =>
          match nonempty (_normalize_sub_code s) with
          | Some sub => select_loop rest (out ∪ {[sub]})
          | None => Raise (ValueError ("Unrecognized subject: " +:+ s))
          end
      end
  end.

Definition select_subjects (specs : list string) : result (list string) :=
  match specs with
  | [] => Ok (dict_keys SUB_TO_S)
  | _ =>
      match select_loop specs ∅ with
      | Ok out => Ok (sorted out)
      | Raise e => Raise e
      end
  end.

Definition canonical_codes : list string := ["sub-01"; "sub-04"; "sub-06"; "sub-07"].

Definition short_codes : list string := ["S1"; "S2"; "S3"; "S4"].

(** a spec string that [select_subjects] resolves, and to which code *)
Definition resolve (s : string) : option string :=
  match dict_get S_TO_SUB (Py.upper s) with
  | Some sub => Some sub
  | None => _normalize_sub_code s
  end.

(** the first spec of a list that resolves to no code *)
Fixpoint first_bad (specs : list string) : option string :=
  match specs with
  | [] => None
  | s :: rest => if resolve s is Some _ then first_bad rest else Some s
  end.

(** ** The world of [main] *)

(** A child of the destination directory. [pinned] records that the
    operating system refuses to change the entry: [unlink] raises and
    [rmtree] fails on it, and a pinned file cannot be opened for writing.
    The run removes only children outside the allowed set and writes over
    an existing file only at the manifest path, so each child meets one of
    the two refusals at most. *)
Inductive node : Type :=
| File (data : string) (pinned : bool)
| Dir (pinned : bool).

Definition is_dir (n : node) : bool :=
  match n with
  | Dir _ => true
  | File _ _ => false
  end.

Definition is_pinned (n : node) : bool :=
  match n with
  | Dir p => p
  | File _ p => p
  end.

(** calls into [urllib.request], in the order they are made *)
Inductive call : Type :=
| Urlopen (url : string)
| Urlretrieve (url : value) (dest : string).

Definition is_retrieve (c : call) : bool :=
  match c with
  | Urlretrieve _ _ => true
  | Urlopen _ => false
  end.

Record world : Type := World {
  fs : option (gmap string node);  (* the children of [dest_root]; [None]: no such directory *)
  stdout : list string;            (* one item per [print] *)
  calls : list call
}.

(** a file descriptor of the remote catalog, a JSON object *)
Abbreviation entry := (gmap string value).

(** one target of [files_attention.json] *)
Record target : Type := Target {
  save_in : option string;
  article_id : option Z;
  subjects : option (list string)
}.

Record manifest_record : Type := ManifestRecord {
  api_name : value;
  saved_as : string;
  subject_S : value;
  download_url : value;
  md5_remote : value;
  md5_local : value
}.

Record manifest_doc : Type := ManifestDoc {
  figshare_article_id : Z;
  dest_root : string;
  S_to_sub : list (string * string);
  sub_to_S : list (string * string);
  downloaded : list manifest_record;
  pruned : list string
}.

(** What the run reads and does not change: the parsed file list, the
    remote API, the remote files, whether [tqdm] is installed, and the
    library functions [hashlib.md5] (digest of all the bytes fed to it) and
    [json.dumps]. *)
Record env : Type := Env {
  filelist_path : string;
  filelist : list (string * target);
  figshare : string -> option (option (list entry));
  remote : string -> option string;
  tqdm : bool;
  hashlib_md5 : string -> string;
  json_dumps : manifest_doc -> string
}.

(** state and exceptions *)
Definition io (A : Type) : Type := world -> result A * world.

#[global] Instance io_ret : MRet io := fun A a w => (Ok a, w).

#[global] Instance io_bind : MBind io := fun A B f m w =>
  match m w with
  | (Ok a, w') => f a w'
  | (Raise e, w') => (Raise e, w')
  end.

Definition raise {A : Type} (e : exn) : io A := fun w => (Raise e, w).

Definition lift {A : Type} (r : result A) : io A := fun w => (r, w).

(** [try: m except Exception as e: ...]: the outcome of [m] as a value *)
Definition attempt {A : Type} (m : io A) : io (result A) := fun w =>
  match m w with
  | (r, w') => (Ok r, w')
  end.

Definition print (line : string) : io unit := fun w =>
  (Ok tt, World (fs w) (stdout w ++ [line]) (calls w)).

Definition record_call (c : call) : io unit := fun w =>
  (Ok tt, World (fs w) (stdout w) (calls w ++ [c])).

Definition get_fs : io (option (gmap string node)) := fun w => (Ok (fs w), w).

Definition put_fs (d : gmap string node) : io unit := fun w =>
  (Ok tt, World (Some d) (stdout w) (calls w)).

Definition nl : string := String (ascii_of_nat 10) EmptyString.

(** [dest_root / name] *)
Definition path_join (root name : string) : string :=
  if Py.endswith root "/" then root +:+ name else root +:+ "/" +:+ name.

(** [str(e)] *)
Definition exn_str (e : exn) : string :=
  match e with
  | KeyError key => py_repr (VStr key)
  | ValueError msg => msg
  | TypeError msg => msg
  | URLError url => "<urlopen error " +:+ url +:+ ">"
  | FileNotFoundError path => "[Errno 2] No such file or directory: '" +:+ path +:+ "'"
  | IsADirectoryError path => "[Errno 21] Is a directory: '" +:+ path +:+ "'"
  | PermissionError path => "[Errno 13] Permission denied: '" +:+ path +:+ "'"
  end.

(** [fi.get(k)] and [fi[k]] *)
Definition dget (fi : entry) (k : string) : value := default VNone (fi !! k).

Definition getitem (fi : entry) (k : string) : io value :=
  match fi !! k with
  | Some v => mret v
  | None => raise (KeyError k)
  end.

Definition FIGSHARE_API_ARTICLE (article_id : Z) : string :=
  "https://api.figshare.com/v2/articles/" +:+
  NilZero.string_of_int (Z.to_int article_id).

Definition manifest_name : string := "attention_manifest.json".

Definition flat_name (S : string) : string := S +:+ "_attention.h5".

(** [{f"{S}_attention.h5" for S in S_TO_SUB.keys()}] with the manifest added *)
Definition allowed : gset string :=
  list_to_set (map flat_name (dict_keys S_TO_SUB)) ∪ {[manifest_name]}.

(** the first loop of [main] on one catalog entry: [Some] of the annotated
    entry when it is appended to [chosen] *)
Definition choose_one (wanted : gset string) (fi : entry) : option entry :=
  let name := default (VStr "") (fi !! "name") in
  let url := py_or (dget fi "download_url") (py_or (dget fi "url") (dget fi "supplied_url")) in
  if negb (truthy name) || negb (truthy url) then None
  else if negb (looks_like_attention_fmri (py_str name)) then None
  else
    match nonempty (_normalize_sub_code (py_str name)) with
    | Some sub =>
        if bool_decide (sub ∈ wanted) then
          Some (<["__S" := VStr (default "Sx" (dict_get SUB_TO_S sub))]>
                  (<["__sub" := VStr sub]> fi))
        else None
    | None => None
    end.

Definition choose (wanted : gset string) (files : list entry) : list entry :=
  omap (choose_one wanted) files.

Section Run.

Context (E : env).

(** reading a file in chunks of [n] bytes until an empty chunk, feeding
    each one to the hash; [h] is what the hash has been fed so far *)
Fixpoint read_chunks (fuel n : nat) (s h : string) : string :=
  match fuel with
  | O => h
  | S fuel' =>
      match Py.take n s with
      | EmptyString => h
      | chunk => read_chunks fuel' n (Py.drop n s) (h +:+ chunk)
      end
  end.

Definition chunk_size : nat := N.to_nat (1024 * 1024).

Definition _md5sum (root name : string) : io string :=
  d ← get_fs;
  match default ∅ d !! name with
  | Some (File data _) =>
      mret (hashlib_md5 E (read_chunks (S (String.length data)) chunk_size data ""))
  | Some (Dir _) => raise (IsADirectoryError (path_join root name))
  | None => raise (FileNotFoundError (path_join root name))
  end.

(** opening [url] and reading the whole response *)
Definition http_get (url : value) : result string :=
  match url with
  | VNone => Raise (TypeError "expected string or bytes-like object")
  | VStr u =>
      if String.eqb u "" then Raise (ValueError "unknown url type: ''")
      else
        match remote E u with
        | None => Raise (URLError u)
        | Some body => Ok body
        end
  end.

(** [urlretrieve(url, dest)] *)
Definition urlretrieve (url : value) (root name : string) : io unit :=
  record_call (Urlretrieve url (path_join root name));;
  body ← lift (http_get url);
  d ← get_fs;
  put_fs (<[name := File body false]> (default ∅ d)).

(** the request for Content-Length when [tqdm] is there; its failure is
    tolerated *)
Definition probe (url : value) : io unit :=
  match url with
  | VStr u => record_call (Urlopen u)
  | VNone => mret tt
  end.

Definition _progress_urlretrieve (url : value) (root name : string) : io unit :=
  if tqdm E then probe url;; urlretrieve url root name
  else urlretrieve url root name.

Definition fetch_figshare_files (article_id : Z) : io (list entry) :=
  let url := FIGSHARE_API_ARTICLE article_id in
  record_call (Urlopen url);;
  match figshare E url with
  | None => raise (URLError url)
  | Some meta => mret (default [] meta)
  end.

(** the existence check and the download of one chosen entry *)
Definition download_step (name url : value) (root fname : string) : io unit :=
  d ← get_fs;
  match default ∅ d !! fname with
  | None =>
      print ("Downloading " +:+ py_str name +:+ " → " +:+ path_join root fname);;
      _progress_urlretrieve url root fname
  | Some _ => print ("Exists, skipping: " +:+ path_join root fname)
  end.

Definition mismatch_msg (name md5_remote : value) (md5_local : string) : string :=
  "MD5 mismatch for " +:+ py_str name +:+ nl +:+
  "Expected: " +:+ py_str md5_remote +:+ nl +:+
  "Actual:   " +:+ md5_local.

Definition issue_line (name : value) (e : exn) : string :=
  "MD5 check issue for " +:+ py_str name +:+ ": " +:+ exn_str e.

(** the [try] block of the MD5 check; the value is [md5_local] *)
Definition verify (name md5_remote : value) (root fname : string) : io value :=
  r ← attempt (_md5sum root fname);
  match r with
  | Ok h =>
      if truthy md5_remote && negb (bool_decide (VStr h = md5_remote)) then
        print (issue_line name (ValueError (mismatch_msg name md5_remote h)));;
        mret (VStr h)
      else mret (VStr h)
  | Raise e => print (issue_line name e);; mret VNone
  end.

(** the body of the second loop of [main] *)
Definition process_file (root : string) (fi : entry) : io manifest_record :=
  name ← getitem fi "name";
  url ← getitem fi "download_url";
  let md5_remote := dget fi "md5" in
  S ← getitem fi "__S";
  let fname := flat_name (py_str S) in
  download_step name url root fname;;
  md5_local ← verify name md5_remote root fname;
  mret (ManifestRecord name (path_join root fname) S url md5_remote md5_local).

Fixpoint download_all (root : string) (chosen : list entry) : io (list manifest_record) :=
  match chosen with
  | [] => mret []
  | fi :: rest =>
      r ← process_file root fi;
      rs ← download_all root rest;
      mret (r :: rs)
  end.

(** removing one child that is not allowed; the value tells whether its
    name is appended to [pruned] *)
Definition remove_child (name : string) (n : node) : io bool :=
  match n with
  | Dir pinned =>
      (* shutil.rmtree(p, ignore_errors=True) *)
      d ← get_fs;
      (if pinned then mret tt else put_fs (delete name (default ∅ d)));;
      mret true
  | File _ pinned =>
      (* p.unlink() inside try/except *)
      if pinned then mret false
      else
        d ← get_fs;
        put_fs (delete name (default ∅ d));;
        mret true
  end.

Fixpoint prune_loop (children : list (string * node)) (pruned : list string) : io (list string) :=
  match children with
  | [] => mret pruned
  | (name, n) :: rest =>
      if bool_decide (name ∈ allowed) then prune_loop rest pruned
      else
        removed ← remove_child name n;
        prune_loop rest (if removed : bool then pruned ++ [name] else pruned)
  end.

(** [for p in dest_root.iterdir(): ...] *)
Definition prune (root : string) : io (list string) :=
  d ← get_fs;
  match d with
  | None => raise (FileNotFoundError root)
  | Some children => prune_loop (map_to_list children) []
  end.

(** [path.write_text(text)] for a child of [dest_root] *)
Definition write_text (root name text : string) : io unit :=
  d ← get_fs;
  match d with
  | None => raise (FileNotFoundError (path_join root name))
  | Some children =>
      match children !! name with
      | Some (Dir _) => raise (IsADirectoryError (path_join root name))
      | Some (File _ pinned) =>
          if pinned then raise (PermissionError (path_join root name))
          else put_fs (<[name := File text false]> children)
      | None => put_fs (<[name := File text false]> children)
      end
  end.

Definition status_line (root S : string) : io unit :=
  d ← get_fs;
  print (" - " +:+ path_join root (flat_name S) +:+ " " +:+
         (if default ∅ d !! flat_name S is Some _ then "OK" else "MISSING")).

Fixpoint join (sep : string) (l : list string) : string :=
  match l with
  | [] => ""
  | [x] => x
  | x :: rest => x +:+ sep +:+ join sep rest
  end.

Definition report (root : string) (pruned : list string) : io unit :=
  print (nl +:+ "Saved attention files under: " +:+ root);;
  mapM (status_line root) (merge_sort str_le (dict_keys S_TO_SUB));;
  (if pruned is [] then mret tt else print ("Removed extras: " +:+ join ", " pruned));;
  print "Done.".

(** [dest_root.mkdir(parents=True, exist_ok=True)] *)
Definition mkdir : io unit :=
  d ← get_fs;
  put_fs (default ∅ d).

Definition list_repr (l : list string) : string :=
  "[" +:+ join ", " (map (fun k => py_repr (VStr k)) l) +:+ "]".

(** the end of [main]: pruning, the manifest and the summary *)
Definition normalize (root : string) (article : Z) (manifest : list manifest_record) : io unit :=
  pruned ← prune root;
  write_text root manifest_name
    (json_dumps E (ManifestDoc article root S_TO_SUB SUB_TO_S manifest pruned));;
  report root pruned.

Definition main (cfg_target : string) : io unit :=
  match dict_get (filelist E) cfg_target with
  | None =>
      raise (KeyError ("Target '" +:+ cfg_target +:+ "' not in " +:+ filelist_path E +:+
                       ". Options: " +:+ list_repr (dict_keys (filelist E))))
  | Some target =>
      let root := default "./fmri/test_attention" (save_in target) in
      mkdir;;
      let article := default 13474629%Z (article_id target) in
      subs ← lift (select_subjects (default [] (subjects target)));
      let wanted : gset string := list_to_set subs in
      files ← fetch_figshare_files article;
      let chosen := choose wanted files in
      match chosen with
      | [] => print "No matching attention fMRI files found."
      | _ =>
          manifest ← download_all root chosen;
          normalize root article manifest
      end
  end.

End Run.

(** ** What a run computes, as pure functions of the world it starts in *)

(** the value of [md5_local] when the file checked is the child [n] *)
Definition local_md5 (E : env) (n : node) : value :=
  match n with
  | File data _ => VStr (hashlib_md5 E data)
  | Dir _ => VNone
  end.

(** the line the MD5 check prints for the child [n], if any *)
Definition verify_lines (E : env) (name md5_remote : value) (path : string) (n : node) : list string :=
  match n with
  | File data _ =>
      if truthy md5_remote && negb (bool_decide (VStr (hashlib_md5 E data) = md5_remote))
      then [issue_line name (ValueError (mismatch_msg name md5_remote (hashlib_md5 E data)))]
      else []
  | Dir _ => [issue_line name (IsADirectoryError path)]
  end.

Definition probe_calls (E : env) (url : value) : list call :=
  match url with
  | VStr u => if tqdm E then [Urlopen u] else []
  | VNone => []
  end.

(** the flat file name of a chosen entry *)
Definition target_name (fi : entry) : string := flat_name (py_str (dget fi "__S")).

(** the record [main] appends for the entry [fi] whose file is the child [n] *)
Definition record_of (E : env) (root : string) (fi : entry) (n : node) : manifest_record :=
  ManifestRecord (dget fi "name") (path_join root (target_name fi)) (dget fi "__S")
                 (dget fi "download_url") (dget fi "md5") (local_md5 E n).

(** everything [main] settles before the downloads: the destination, the
    article and the chosen entries *)
Definition plan (E : env) (cfg_target : string) : option (string * Z * list entry) :=
  match dict_get (filelist E) cfg_target with
  | None => None
  | Some target =>
      let article := default 13474629%Z (article_id target) in
      match select_subjects (default [] (subjects target)) with
      | Raise _ => None
      | Ok subs =>
          match figshare E (FIGSHARE_API_ARTICLE article) with
          | None => None
          | Some meta =>
              Some (default "./fmri/test_attention" (save_in target), article,
                    choose (list_to_set subs) (default [] meta))
          end
      end
  end.

(** the world once the destination exists and the catalog has been fetched *)
Definition started (article : Z) (w : world) : world :=
  World (Some (default ∅ (fs w))) (stdout w)
        (calls w ++ [Urlopen (FIGSHARE_API_ARTICLE article)]).

(** the children of the destination directory *)
Definition children (w : world) : gmap string node := default ∅ (fs w).

Definition downloading_line (root : string) (fi : entry) : string :=
  "Downloading " +:+ py_str (dget fi "name") +:+ " → " +:+ path_join root (target_name fi).

Definition exists_line (root : string) (fi : entry) : string :=
  "Exists, skipping: " +:+ path_join root (target_name fi).

(** one turn of the second loop of [main] on an entry that has the keys
    the loop reads *)
Definition processed (E : env) (root : string) (fi : entry) (w : world) :
    result manifest_record * world :=
  let fname := target_name fi in
  let path := path_join root fname in
  let name := dget fi "name" in
  let url := dget fi "download_url" in
  match children w !! fname with
  | Some n =>
      (Ok (record_of E root fi n),
       World (fs w)
             (stdout w ++ exists_line root fi :: verify_lines E name (dget fi "md5") path n)
             (calls w))
  | None =>
      let calls' := calls w ++ probe_calls E url ++ [Urlretrieve url path] in
      match http_get E url with
      | Ok body =>
          (Ok (record_of E root fi (File body false)),
           World (Some (<[fname := File body false]> (children w)))
                 (stdout w ++ downloading_line root fi ::
                    verify_lines E name (dget fi "md5") path (File body false))
                 calls')
      | Raise e => (Raise e, World (fs w) (stdout w ++ [downloading_line root fi]) calls')
      end
  end.

(** an entry that has the keys the second loop reads with [fi[...]] *)
Definition keyed (fi : entry) : Prop :=
  is_Some (fi !! "name") /\ is_Some (fi !! "download_url") /\ is_Some (fi !! "__S").

(** a child that pruning leaves in place *)
Definition stays (name : string) (n : node) : bool :=
  bool_decide (name ∈ allowed) || is_pinned n.

(** a child whose name pruning appends to [pruned] *)
Definition listed (name : string) (n : node) : bool :=
  negb (bool_decide (name ∈ allowed)) && (is_dir n || negb (is_pinned n)).

(** what a record and the output say about the entry it was made for, in
    the world [w'] the loop ends in *)
Definition recorded (E : env) (root : string) (w' : world) (fi : entry) (r : manifest_record) : Prop :=
  exists n, children w' !! target_name fi = Some n /\ r = record_of E root fi n /\
    forall line, line ∈ verify_lines E (dget fi "name") (dget fi "md5")
                          (path_join root (target_name fi)) n ->
                 line ∈ stdout w'.

(** the directory and the list of names that pruning the children [l] gives *)
Definition prune_dir (l : list (string * node)) (d : gmap string node) : gmap string node :=
  foldl (fun d p => if stays p.1 p.2 then d else delete p.1 d) d l.

Definition prune_names (l : list (string * node)) : list string :=
  omap (fun p => if listed p.1 p.2 then Some p.1 else None) l.

(** ** The selector, in the words of the specification *)

(** the name of a catalog entry; an entry without a name has the empty one *)
Definition entry_name (fi : entry) : string :=
  match fi !! "name" with
  | Some (VStr n) => n
  | _ => ""
  end.

(** the name ends in [.h5], contains both required substrings (case
    is ignored) and its derived subject code is wanted *)
Definition keeps_by_name (wanted : gset string) (fi : entry) : bool :=
  let lo := Py.lower (entry_name fi) in
  Py.endswith lo ".h5" && Py.contains "attention" lo && Py.contains "vc" lo &&
  match _normalize_sub_code (entry_name fi) with
  | Some sub => bool_decide (sub ∈ wanted)
  | None => false
  end.

(** a non-empty URL in one of the three fields the first loop reads *)
Definition has_url (fi : entry) : bool :=
  truthy (dget fi "download_url") ||
  (truthy (dget fi "url") || truthy (dget fi "supplied_url")).

(** the entry with its derived subject code and short code *)
Definition annotate (fi : entry) : entry :=
  let sub := default "" (_normalize_sub_code (entry_name fi)) in
  <["__S" := VStr (default "Sx" (dict_get SUB_TO_S sub))]> (<["__sub" := VStr sub]> fi).

(** the number of downloads among the calls made *)
Definition fetches (cs : list call) : nat :=
  length (filter (fun c => is_retrieve c = true) cs).


(** ** Small worlds for evaluation *)

Module Ex.

Definition all_wanted : gset string := list_to_set canonical_codes.

Definition sub01 : entry :=
  <["md5" := VStr "abc"]>
    (<["download_url" := VStr "http://x/1"]>
       (<["name" := VStr "sub-01_attention_vc.h5"]> ∅)).

Definition sub99 : entry :=
  <["download_url" := VStr "http://x/2"]> (<["name" := VStr "sub-99_other.h5"]> ∅).

(** a second file of subject sub-01 *)
Definition sub01_again : entry :=
  <["download_url" := VStr "http://x/1b"]>
    (<["name" := VStr "SUB_1_Attention_VC.h5"]> ∅).

(** the URL is in [url], not in [download_url] *)
Definition url_only : entry :=
  <["url" := VStr "http://x/3"]> (<["name" := VStr "sub-06_attention_vc.h5"]> ∅).

(** a matching name and no URL at all *)
Definition no_url : entry := <["name" := VStr "sub-01_attention_vc.h5"]> ∅.

Definition remote_files (u : string) : option string :=
  if String.eqb u "http://x/1" then Some "BODY1"
  else if String.eqb u "http://x/1b" then Some "BODY1b"
  else if String.eqb u "http://x/3" then Some "BODY3"
  else None.

(** an environment whose catalog is [files] and whose target asks for
    [subjects]; the manifest text is the list of pruned names *)
Definition env_of (files : list entry) (subjects : option (list string)) : env :=
  Env "files_attention.json"
      [("fmri_attention", Target (Some "/data/att") None subjects)]
      (fun u => if String.eqb u (FIGSHARE_API_ARTICLE 13474629) then Some (Some files) else None)
      remote_files
      false
      (fun data => "md5:" +:+ data)
      (fun doc => join "," (pruned doc)).

Definition fresh : world := World None [] [].

(** a destination with a stray file, a stray directory and a file that
    cannot be removed *)
Definition cluttered : world :=
  World (Some (<["notes.txt" := File "hi" false]>
                 (<["old" := Dir false]> (<["keep.txt" := File "k" true]> ∅))))
        [] [].

(** a destination where the file of subject sub-01 is already there *)
Definition cached : world :=
  World (Some (<["S4_attention.h5" := File "OLD" false]> ∅)) [] [].

End Ex.

(** * Properties *)

(** ** Evaluation on small inputs *)

Example select_S1 : select_subjects ["S1"] = Ok ["sub-06"].
Proof. vm_compute. reflexivity. Qed.

Example select_mixed :
  select_subjects ["sub_7"; "s4"; "SUB-01"; "  Sub04 "] = Ok ["sub-01"; "sub-04"; "sub-07"].
Proof. vm_compute. reflexivity. Qed.

Example select_sub10 :
  select_subjects ["sub-010"] = Raise (ValueError "Unrecognized subject: sub-010").
Proof. vm_compute. reflexivity. Qed.

Example normalize_name :
  _normalize_sub_code "sub-01_attention_vc.h5" = Some "sub-01".
Proof. vm_compute. reflexivity. Qed.

Example normalize_leftmost :
  _normalize_sub_code "sub-99 sub-01" = None.
Proof. vm_compute. reflexivity. Qed.

Example run_on_cluttered_destination :
  let w' := snd (main (Ex.env_of [Ex.sub01; Ex.sub99] None) "fmri_attention" Ex.cluttered) in
  (map_to_list (children w')).*1 = ["keep.txt"; "S4_attention.h5"; "attention_manifest.json"] /\
  calls w' = [Urlopen (FIGSHARE_API_ARTICLE 13474629);
              Urlretrieve (VStr "http://x/1") "/data/att/S4_attention.h5"].
Proof. vm_compute. split; reflexivity. Qed.

Example second_run_fetches_nothing :
  let E := Ex.env_of [Ex.sub01; Ex.sub01_again] None in
  let w1 := snd (main E "fmri_attention" Ex.fresh) in
  let w2 := snd (main E "fmri_attention" w1) in
  fetches (calls w1) = 1 /\ fetches (calls w2) = 1 /\
  children w2 !! "S4_attention.h5" = Some (File "BODY1" false).
Proof. vm_compute. split_and!; reflexivity. Qed.

Example mismatch_line_printed :
  ("MD5 check issue for sub-01_attention_vc.h5: MD5 mismatch for sub-01_attention_vc.h5" +:+
   String (ascii_of_nat 10) "Expected: abc" +:+
   String (ascii_of_nat 10) "Actual:   md5:BODY1")
  ∈ stdout (snd (main (Ex.env_of [Ex.sub01] None) "fmri_attention" Ex.fresh)).
Proof. vm_compute. set_solver. Qed.

(** ** The order of [sorted] *)

Lemma ascii_compare_N (a b : ascii) :
  Ascii.compare a b = N.compare (N_of_ascii a) (N_of_ascii b).
Proof. reflexivity. Qed.

Lemma string_compare_le_trans (s t u : string) :
  String.compare s t <> Gt -> String.compare t u <> Gt -> String.compare s u <> Gt.
Proof.
  revert t u. induction s as [|a s IH]; intros [|b t] [|c u]; simpl; try congruence.
  destruct (Ascii.compare a b) eqn:Hab; try congruence;
    destruct (Ascii.compare b c) eqn:Hbc; try congruence; intros H1 H2.
  - apply Ascii.compare_eq_iff in Hab, Hbc. subst.
    replace (Ascii.compare c c) with Eq
      by (symmetry; rewrite ascii_compare_N; apply N.compare_refl).
    eauto.
  - apply Ascii.compare_eq_iff in Hab. subst. rewrite Hbc. congruence.
  - apply Ascii.compare_eq_iff in Hbc. subst. rewrite Hab. congruence.
  - rewrite ascii_compare_N in *. rewrite N.compare_lt_iff in Hab, Hbc.
    replace (N_of_ascii a ?= N_of_ascii c)%N with Lt; [congruence|].
    symmetry. apply N.compare_lt_iff. lia.
Qed.

#[global] Instance str_le_trans : Transitive str_le.
Proof.
  intros s t u. unfold str_le, String.leb. intros H1 H2.
  pose proof (string_compare_le_trans s t u) as H.
  destruct (String.compare s t), (String.compare t u), (String.compare s u);
    try reflexivity; try discriminate; exfalso; apply H; congruence.
Qed.

#[global] Instance str_le_total : Total str_le.
Proof. intros s t. apply String.leb_total. Qed.

(** ** Subject codes *)


Lemma dict_get_S_TO_SUB (k v : string) :
  dict_get S_TO_SUB k = Some v -> k ∈ short_codes /\ v ∈ canonical_codes.
Proof.
  unfold S_TO_SUB, short_codes, canonical_codes. cbn [dict_get].
  repeat (destruct (String.eqb _ k) eqn:Hk;
          [apply String.eqb_eq in Hk; subst k; intros [= <-]; split; set_solver|clear Hk]).
  discriminate.
Qed.

Lemma dict_get_S_TO_SUB_None (k : string) :
  dict_get S_TO_SUB k = None <-> k ∉ short_codes.
Proof.
  split.
  - intros Hn Hin. unfold short_codes in Hin.
    repeat (apply elem_of_cons in Hin as [->|Hin]; [discriminate Hn|]).
    by apply elem_of_nil in Hin.
  - intros Hn. destruct (dict_get S_TO_SUB k) eqn:Hk; [|done].
    apply dict_get_S_TO_SUB in Hk as [? _]. contradiction.
Qed.

Lemma _normalize_sub_code_canonical (s c : string) :
  _normalize_sub_code s = Some c -> c ∈ canonical_codes.
Proof.
  unfold _normalize_sub_code.
  destruct (Re.search _) as [g|]; [|discriminate].
  case_bool_decide as Hn; [|discriminate].
  intros [= <-]. unfold canonical_codes.
  repeat (apply elem_of_cons in Hn as [->|Hn]; [vm_compute; set_solver|]).
  by apply elem_of_nil in Hn.
Qed.

Lemma nonempty_normalize (s : string) :
  nonempty (_normalize_sub_code s) = _normalize_sub_code s.
Proof.
  destruct (_normalize_sub_code s) as [c|] eqn:Hc; [|done].
  apply _normalize_sub_code_canonical in Hc. unfold canonical_codes in Hc.
  repeat (apply elem_of_cons in Hc as [->|Hc]; [done|]).
  by apply elem_of_nil in Hc.
Qed.


Lemma resolve_canonical (s c : string) : resolve s = Some c -> c ∈ canonical_codes.
Proof.
  unfold resolve. destruct (dict_get _ _) eqn:Hd.
  - intros [= <-]. by apply dict_get_S_TO_SUB in Hd as [_ ?].
  - apply _normalize_sub_code_canonical.
Qed.

Lemma select_loop_cons (s : string) (rest : list string) (out : gset string) :
  select_loop (s :: rest) out =
  match resolve s with
  | Some sub => select_loop rest (out ∪ {[sub]})
  | None => Raise (ValueError ("Unrecognized subject: " +:+ s))
  end.
Proof.
  cbn [select_loop]. unfold resolve. destruct (dict_get _ _); [done|].
  rewrite nonempty_normalize. by destruct (_normalize_sub_code s).
Qed.

Lemma select_loop_ok (specs : list string) (out out' : gset string) :
  select_loop specs out = Ok out' ->
  out' = out ∪ list_to_set (omap resolve specs) /\ Forall (fun s => is_Some (resolve s)) specs.
Proof.
  revert out. induction specs as [|s rest IH]; intros out.
  - simpl. intros [= <-]. split; [set_solver|constructor].
  - rewrite select_loop_cons. destruct (resolve s) as [sub|] eqn:Hs; [|discriminate].
    intros H. apply IH in H as [-> HF]. split.
    + simpl. rewrite Hs. set_solver.
    + constructor; [by rewrite Hs|done].
Qed.


Lemma first_bad_Some (specs : list string) (s : string) :
  first_bad specs = Some s -> s ∈ specs /\ resolve s = None.
Proof.
  induction specs as [|x rest IH]; simpl; [discriminate|].
  destruct (resolve x) eqn:Hx.
  - intros H. apply IH in H as [? ?]. split; [by right|done].
  - intros [= <-]. split; [by left|done].
Qed.

Lemma first_bad_exists (specs : list string) (s : string) :
  s ∈ specs -> resolve s = None -> is_Some (first_bad specs).
Proof.
  induction specs as [|x rest IH]; simpl.
  - intros H. by apply elem_of_nil in H.
  - intros Hin Hs. destruct (resolve x) eqn:Hx; [|by eexists].
    apply elem_of_cons in Hin as [->|Hin]; [congruence|auto].
Qed.

Lemma select_loop_bad (specs : list string) (out : gset string) (s : string) :
  first_bad specs = Some s ->
  select_loop specs out = Raise (ValueError ("Unrecognized subject: " +:+ s)).
Proof.
  revert out. induction specs as [|x rest IH]; intros out; [discriminate|].
  rewrite select_loop_cons. simpl. destruct (resolve x); [apply IH|].
  by intros [= <-].
Qed.

Lemma select_subjects_bad (specs : list string) (s : string) :
  first_bad specs = Some s ->
  select_subjects specs = Raise (ValueError ("Unrecognized subject: " +:+ s)).
Proof.
  intros H. destruct specs as [|x rest]; [discriminate|].
  unfold select_subjects. by rewrite (select_loop_bad _ _ _ H).
Qed.

Lemma select_subjects_ok (specs : list string) (r : list string) :
  select_subjects specs = Ok r ->
  NoDup r /\ (forall c, c ∈ r -> c ∈ canonical_codes) /\
  (specs <> [] -> StronglySorted str_le r /\
                  forall c, c ∈ r <-> exists s, s ∈ specs /\ resolve s = Some c).
Proof.
  destruct specs as [|x rest].
  - intros [= <-]. split; [|split; [|done]].
    + vm_compute. repeat (constructor; [set_solver|]). constructor.
    + intros c. vm_compute. set_solver.
  - unfold select_subjects. destruct (select_loop _ _) as [out|] eqn:Hl; [|discriminate].
    intros [= <-]. apply select_loop_ok in Hl as [-> _].
    assert (Hperm : sorted (∅ ∪ list_to_set (omap resolve (x :: rest))) ≡ₚ
                    elements (∅ ∪ list_to_set (omap resolve (x :: rest)) : gset string))
      by apply merge_sort_Permutation.
    assert (Hmem : forall c, c ∈ sorted (∅ ∪ list_to_set (omap resolve (x :: rest))) <->
                             exists s, s ∈ x :: rest /\ resolve s = Some c).
    { intros c. rewrite Hperm, elem_of_elements, elem_of_union, elem_of_list_to_set.
      rewrite list_elem_of_omap. set_solver. }
    split; [|split].
    + rewrite Hperm. apply NoDup_elements.
    + intros c [s [_ Hs]]%Hmem. by apply resolve_canonical in Hs.
    + intros _. split; [|done]. apply StronglySorted_merge_sort; apply _.
Qed.

(** ** The monad *)

Lemma bind_unfold {A B : Type} (m : io A) (f : A -> io B) (w : world) :
  (m ≫= f) w =
  match m w with
  | (Ok a, w') => f a w'
  | (Raise e, w') => (Raise e, w')
  end.
Proof. reflexivity. Qed.

Lemma bind_ok {A B : Type} (m : io A) (f : A -> io B) (w w' : world) (a : A) :
  m w = (Ok a, w') -> (m ≫= f) w = f a w'.
Proof. intros H. by rewrite bind_unfold, H. Qed.

Lemma bind_raise {A B : Type} (m : io A) (f : A -> io B) (w w' : world) (e : exn) :
  m w = (Raise e, w') -> (m ≫= f) w = (Raise e, w').
Proof. intros H. by rewrite bind_unfold, H. Qed.

Lemma bind_ok_inv {A B : Type} (m : io A) (f : A -> io B) (w w' : world) (b : B) :
  (m ≫= f) w = (Ok b, w') -> exists a w1, m w = (Ok a, w1) /\ f a w1 = (Ok b, w').
Proof.
  rewrite bind_unfold. destruct (m w) as [[a|e] w1]; [eauto|discriminate].
Qed.

Ltac io_simpl :=
  repeat first
    [ rewrite bind_unfold
    | progress unfold get_fs, put_fs, print, record_call, lift, raise, attempt
    | progress cbn [mret io_ret fs stdout calls default from_option id] ].

Lemma world_eta (w : world) : World (fs w) (stdout w) (calls w) = w.
Proof. by destruct w. Qed.

(** ** Reading a file in chunks *)

Lemma take_drop (n : nat) (s : string) : Py.take n s +:+ Py.drop n s = s.
Proof.
  revert s. induction n as [|n IH]; intros [|c s]; simpl; try done.
  change (String c (Py.take n s +:+ Py.drop n s) = String c s). by rewrite IH.
Qed.

Lemma drop_length (n : nat) (s : string) :
  String.length (Py.drop n s) = String.length s - n.
Proof. revert s. induction n as [|n IH]; intros [|c s]; simpl; auto with lia. Qed.

Lemma append_assoc (a b c : string) : (a +:+ b) +:+ c = a +:+ (b +:+ c).
Proof.
  induction a as [|x a IH]; [done|].
  change (String x ((a +:+ b) +:+ c) = String x (a +:+ (b +:+ c))). by rewrite IH.
Qed.

Lemma append_nil_r (a : string) : a +:+ "" = a.
Proof.
  induction a as [|x a IH]; [done|].
  change (String x (a +:+ "") = String x a). by rewrite IH.
Qed.

Lemma read_chunks_all (fuel n : nat) (s h : string) :
  0 < n -> String.length s < fuel -> read_chunks fuel n s h = h +:+ s.
Proof.
  intros Hn. revert s h. induction fuel as [|fuel IH]; intros s h Hf; [lia|].
  cbn [read_chunks]. destruct (Py.take n s) as [|c t] eqn:Ht.
  - destruct n as [|n]; [lia|]. destruct s; [by rewrite append_nil_r|discriminate].
  - rewrite IH.
    + by rewrite append_assoc, <- Ht, take_drop.
    + rewrite drop_length. destruct s; [by destruct n|]. simpl in *. lia.
Qed.

Lemma chunk_size_pos : 0 < chunk_size.
Proof. unfold chunk_size. lia. Qed.

Section RunFacts.

Context (E : env).

Lemma _md5sum_spec (root name : string) (w : world) :
  _md5sum E root name w =
  match children w !! name with
  | Some (File data _) => (Ok (hashlib_md5 E data), w)
  | Some (Dir _) => (Raise (IsADirectoryError (path_join root name)), w)
  | None => (Raise (FileNotFoundError (path_join root name)), w)
  end.
Proof.
  unfold _md5sum, children. rewrite bind_unfold. cbn [get_fs].
  destruct (default ∅ (fs w) !! name) as [[data p|p]|]; try done.
  unfold mret, io_ret. by rewrite read_chunks_all by (apply chunk_size_pos || lia).
Qed.

Lemma verify_spec (name md5_remote : value) (root fname : string) (w : world) (n : node) :
  children w !! fname = Some n ->
  verify E name md5_remote root fname w =
  (Ok (local_md5 E n),
   World (fs w) (stdout w ++ verify_lines E name md5_remote (path_join root fname) n) (calls w)).
Proof.
  intros Hn. unfold verify, attempt. rewrite bind_unfold, _md5sum_spec, Hn.
  destruct n as [data p|p]; cbn [local_md5 verify_lines].
  - destruct (truthy md5_remote && _); cbn.
    + done.
    + by rewrite app_nil_r, world_eta.
  - done.
Qed.

Lemma process_file_spec (root : string) (fi : entry) (w : world) :
  is_Some (fi !! "name") -> is_Some (fi !! "download_url") -> is_Some (fi !! "__S") ->
  process_file E root fi w = processed E root fi w.
Proof.
  intros [name Hname] [url Hurl] [S HS].
  unfold process_file, processed, getitem, record_of, downloading_line, exists_line,
    target_name, dget.
  rewrite Hname, Hurl, HS. unfold download_step. io_simpl. fold (children w).
  destruct (children w !! flat_name (py_str S)) as [n|] eqn:Hn.
  - io_simpl. rewrite verify_spec with (n := n) by done. io_simpl.
    by rewrite <- app_assoc.
  - unfold _progress_urlretrieve, urlretrieve, probe, probe_calls.
    destruct (tqdm E), url as [|u]; io_simpl;
      destruct (http_get E _) as [body|e]; io_simpl;
      rewrite ?app_nil_l, <- ?app_assoc; try done.
    all: rewrite verify_spec with (n := File body false)
        by (unfold children; cbn [fs default from_option]; apply lookup_insert_eq).
    all: io_simpl; by rewrite <- ?app_assoc.
Qed.

Lemma process_file_ok_keyed (root : string) (fi : entry) (w w' : world) (r : manifest_record) :
  process_file E root fi w = (Ok r, w') -> keyed fi.
Proof.
  unfold process_file, getitem, keyed.
  destruct (fi !! "name"); [|discriminate].
  destruct (fi !! "download_url"); [|discriminate].
  destruct (fi !! "__S"); [|discriminate]. eauto.
Qed.

(** *** One turn of the download loop *)

Lemma processed_mono (root : string) (fi : entry) (w w' : world) r (k : string) (n : node) :
  processed E root fi w = (r, w') ->
  children w !! k = Some n -> children w' !! k = Some n.
Proof.
  unfold processed. destruct (children w !! target_name fi) as [m|] eqn:Hm.
  - by intros [= <- <-].
  - destruct (http_get E _); intros [= <- <-]; [|done].
    intros Hk. unfold children at 1. cbn [fs default from_option id].
    rewrite lookup_insert_ne; [done|]. intros <-. by rewrite Hm in Hk.
Qed.

Lemma processed_new (root : string) (fi : entry) (w w' : world) r (k : string) (n : node) :
  processed E root fi w = (r, w') ->
  children w !! k = None -> children w' !! k = Some n ->
  k = target_name fi /\
  exists body, http_get E (dget fi "download_url") = Ok body /\ n = File body false.
Proof.
  unfold processed. destruct (children w !! target_name fi) as [m|] eqn:Hm.
  - intros [= <- <-]. unfold children. cbn [fs]. congruence.
  - destruct (http_get E _) as [body|e]; intros [= <- <-];
      [|unfold children; cbn [fs]; congruence].
    unfold children at 2. cbn [fs default from_option id]. intros Hk.
    rewrite lookup_insert. case_decide as Hd; [|congruence].
    intros [= <-]. eauto.
Qed.

Lemma processed_ok (root : string) (fi : entry) (w w' : world) (r : manifest_record) :
  processed E root fi w = (Ok r, w') ->
  exists n, children w' !! target_name fi = Some n /\ r = record_of E root fi n /\
    forall line, line ∈ verify_lines E (dget fi "name") (dget fi "md5")
                          (path_join root (target_name fi)) n ->
                 line ∈ stdout w'.
Proof.
  unfold processed. destruct (children w !! target_name fi) as [m|] eqn:Hm.
  - intros [= <- <-]. exists m. unfold children at 1. cbn [fs stdout].
    split; [done|]. split; [done|]. intros line Hl.
    apply elem_of_app. right. by right.
  - destruct (http_get E _) as [body|e]; intros [= <- <-].
    exists (File body false). unfold children at 1. cbn [fs stdout default from_option id].
    split; [apply lookup_insert_eq|]. split; [done|]. intros line Hl.
    apply elem_of_app. right. by right.
Qed.

Lemma processed_grows (root : string) (fi : entry) (w w' : world) r :
  processed E root fi w = (r, w') ->
  (exists lines, stdout w' = stdout w ++ lines) /\
  (exists cs, calls w' = calls w ++ cs) /\
  (is_Some (fs w) -> is_Some (fs w')).
Proof.
  unfold processed. destruct (children w !! target_name fi) as [m|] eqn:Hm.
  - intros [= <- <-]. cbn [fs stdout calls]. split; [eauto|]. split; [|done].
    exists []. by rewrite app_nil_r.
  - destruct (http_get E _) as [body|e]; intros [= <- <-]; cbn [fs stdout calls]; eauto.
Qed.

(** the existence check: an existing destination is neither fetched nor
    changed; a missing one is fetched once *)
Lemma processed_exists (root : string) (fi : entry) (w w' : world) r :
  processed E root fi w = (r, w') ->
  is_Some (children w !! target_name fi) ->
  calls w' = calls w /\ fs w' = fs w /\
  exists n, children w !! target_name fi = Some n /\ r = Ok (record_of E root fi n).
Proof.
  unfold processed. intros H [m Hm]. rewrite Hm in H.
  injection H as <- <-. eauto.
Qed.

Lemma processed_missing (root : string) (fi : entry) (w w' : world) r :
  processed E root fi w = (r, w') ->
  children w !! target_name fi = None ->
  calls w' = calls w ++ probe_calls E (dget fi "download_url") ++
             [Urlretrieve (dget fi "download_url") (path_join root (target_name fi))].
Proof.
  unfold processed. intros H Hm. rewrite Hm in H.
  destruct (http_get E _); by injection H as <- <-.
Qed.

(** *** The download loop *)

Lemma download_all_cons_ok (root : string) (fi : entry) (rest : list entry)
    (w w' : world) (recs : list manifest_record) :
  download_all E root (fi :: rest) w = (Ok recs, w') ->
  exists r w1 rs,
    keyed fi /\ processed E root fi w = (Ok r, w1) /\
    download_all E root rest w1 = (Ok rs, w') /\ recs = r :: rs.
Proof.
  cbn [download_all]. intros H.
  apply bind_ok_inv in H as (r & w1 & Hr & H).
  apply bind_ok_inv in H as (rs & w2 & Hrs & H).
  injection H as <- <-.
  pose proof (process_file_ok_keyed _ _ _ _ _ Hr) as Hk.
  rewrite process_file_spec in Hr by apply Hk. eauto 10.
Qed.

Lemma download_all_cons_run (root : string) (fi : entry) (rest : list entry)
    (w w1 w' : world) (r : manifest_record) (rs : list manifest_record) :
  keyed fi -> processed E root fi w = (Ok r, w1) ->
  download_all E root rest w1 = (Ok rs, w') ->
  download_all E root (fi :: rest) w = (Ok (r :: rs), w').
Proof.
  intros Hk Hr Hrs. cbn [download_all].
  rewrite <- process_file_spec in Hr by apply Hk.
  rewrite (bind_ok _ _ _ _ _ Hr), (bind_ok _ _ _ _ _ Hrs). done.
Qed.

Lemma download_all_app_ok (root : string) (l1 l2 : list entry)
    (w w' : world) (recs : list manifest_record) :
  download_all E root (l1 ++ l2) w = (Ok recs, w') ->
  exists recs1 w1 recs2,
    download_all E root l1 w = (Ok recs1, w1) /\
    download_all E root l2 w1 = (Ok recs2, w') /\
    recs = recs1 ++ recs2 /\ length recs1 = length l1.
Proof.
  revert w recs. induction l1 as [|fi l1 IH]; intros w recs H.
  - exists [], w, recs. eauto.
  - rewrite <- app_comm_cons in H.
    apply download_all_cons_ok in H as (r & w0 & rs & Hk & Hr & Hrs & ->).
    apply IH in Hrs as (recs1 & w1 & recs2 & H1 & H2 & -> & Hlen).
    exists (r :: recs1), w1, recs2. split; [|split; [done|split; [done|]]].
    + by apply download_all_cons_run with (w1 := w0).
    + cbn [length]. by rewrite Hlen.
Qed.

Lemma download_all_ok (root : string) (chosen : list entry)
    (w w' : world) (recs : list manifest_record) :
  download_all E root chosen w = (Ok recs, w') ->
  Forall keyed chosen /\
  (forall k n, children w !! k = Some n -> children w' !! k = Some n) /\
  (forall k n, children w !! k = None -> children w' !! k = Some n ->
     exists fi body, fi ∈ chosen /\ k = target_name fi /\ n = File body false) /\
  Forall2 (recorded E root w') chosen recs /\
  (exists lines, stdout w' = stdout w ++ lines) /\
  (exists cs, calls w' = calls w ++ cs) /\
  (is_Some (fs w) -> is_Some (fs w')).
Proof.
  revert w recs. induction chosen as [|fi rest IH]; intros w recs H.
  - injection H as <- <-. repeat split; try done.
    + intros k n H1 H2. by rewrite H1 in H2.
    + exists []. by rewrite app_nil_r.
    + exists []. by rewrite app_nil_r.
  - apply download_all_cons_ok in H as (r & w1 & rs & Hk & Hr & Hrs & ->).
    apply IH in Hrs as (Hkeys & Hmono & Hnew & Hrec & [l2 Hout] & [c2 Hcalls] & Hfs).
    pose proof (processed_grows _ _ _ _ _ Hr) as ([l1 Hout1] & [c1 Hcalls1] & Hfs1).
    repeat split.
    + by constructor.
    + intros k n Hkn. eapply Hmono, processed_mono; eauto.
    + intros k n Hnone Hsome.
      destruct (children w1 !! k) as [m|] eqn:Hm.
      * pose proof (Hmono _ _ Hm) as Hm'. rewrite Hm' in Hsome. injection Hsome as ->.
        destruct (processed_new _ _ _ _ _ _ _ Hr Hnone Hm) as (-> & body & _ & ->).
        exists fi, body. split; [by left|done].
      * destruct (Hnew _ _ Hm Hsome) as (fj & body & Hin & -> & ->).
        exists fj, body. split; [by right|done].
    + constructor; [|done].
      destruct (processed_ok _ _ _ _ _ Hr) as (n & Hn & -> & Hlines).
      exists n. split; [by apply Hmono|]. split; [done|].
      intros line Hl. rewrite Hout. apply elem_of_app. left. by apply Hlines.
    + exists (l1 ++ l2). by rewrite Hout, Hout1, app_assoc.
    + exists (c1 ++ c2). by rewrite Hcalls, Hcalls1, app_assoc.
    + auto.
Qed.

Lemma download_all_succeeds (root : string) (chosen : list entry) (w : world) :
  Forall keyed chosen ->
  (forall fi, fi ∈ chosen ->
     is_Some (children w !! target_name fi) \/
     exists body, http_get E (dget fi "download_url") = Ok body) ->
  exists recs w', download_all E root chosen w = (Ok recs, w').
Proof.
  revert w. induction chosen as [|fi rest IH]; intros w Hkeys Hget.
  - by exists [], w.
  - apply Forall_cons in Hkeys as [Hk Hkeys].
    assert (exists r w1, processed E root fi w = (Ok r, w1)) as (r & w1 & Hr).
    { unfold processed. destruct (children w !! target_name fi) as [n|] eqn:Hn; [eauto|].
      destruct (Hget fi) as [[n Hn']|[body Hb]]; [by left|congruence|].
      rewrite Hb. eauto. }
    destruct (IH w1 Hkeys) as (rs & w' & Hrs).
    { intros fj Hin. destruct (Hget fj) as [[n Hn]|Hb]; [by right| |by right].
      left. exists n. eapply processed_mono; eauto. }
    exists (r :: rs), w'. by apply download_all_cons_run with (w1 := w1).
Qed.

(** *** Pruning *)

Lemma prune_dir_cons (name : string) (n : node) (l : list (string * node))
    (d : gmap string node) :
  prune_dir ((name, n) :: l) d =
  prune_dir l (if stays name n then d else delete name d).
Proof. reflexivity. Qed.

Lemma prune_names_cons (name : string) (n : node) (l : list (string * node)) :
  prune_names ((name, n) :: l) =
  if listed name n then name :: prune_names l else prune_names l.
Proof. unfold prune_names. cbn [omap list_omap fst snd]. by destruct (listed name n). Qed.

Lemma prune_loop_spec (l : list (string * node)) (acc : list string)
    (d : gmap string node) (out : list string) (cs : list call) :
  prune_loop l acc (World (Some d) out cs) =
  (Ok (acc ++ prune_names l), World (Some (prune_dir l d)) out cs).
Proof.
  revert acc d. induction l as [|[name n] l IH]; intros acc d.
  - cbn. by rewrite app_nil_r.
  - rewrite prune_dir_cons, prune_names_cons. cbn [prune_loop].
    unfold stays, listed. case_bool_decide as Hin; cbn [orb negb andb].
    + apply IH.
    + unfold remove_child.
      destruct n as [data [|]|[|]]; io_simpl; rewrite IH; cbn [is_dir is_pinned orb negb];
        by rewrite <- ?app_assoc.
Qed.

Lemma prune_dir_lookup (l : list (string * node)) (d : gmap string node) (k : string) (n : node) :
  prune_dir l d !! k = Some n <->
  d !! k = Some n /\ forall n', (k, n') ∈ l -> stays k n' = true.
Proof.
  revert d. induction l as [|[name m] l IH]; intros d.
  - cbn. split; [|by intros [? _]]. intros H. split; [done|].
    intros n' Hn'. by apply elem_of_nil in Hn'.
  - rewrite prune_dir_cons, IH. destruct (stays name m) eqn:Hst.
    + split; intros [Hk Hall]; (split; [done|]); intros n' Hn'.
      * apply elem_of_cons in Hn' as [[= -> ->]|Hn']; auto.
      * apply Hall. by right.
    + rewrite lookup_delete_Some. split.
      * intros [[Hne Hk] Hall]. split; [done|]. intros n' Hn'.
        apply elem_of_cons in Hn' as [[= -> ->]|Hn']; [done|auto].
      * intros [Hk Hall]. split; [split; [|done]|].
        -- intros ->. specialize (Hall m). rewrite Hst in Hall.
           discriminate Hall. by left.
        -- intros n' Hn'. apply Hall. by right.
Qed.

Lemma prune_spec (root : string) (d : gmap string node) (out : list string) (cs : list call) :
  exists d' names,
    prune root (World (Some d) out cs) = (Ok names, World (Some d') out cs) /\
    (forall k n, d' !! k = Some n <-> d !! k = Some n /\ stays k n = true) /\
    (forall k, k ∈ names <-> exists n, d !! k = Some n /\ listed k n = true).
Proof.
  exists (prune_dir (map_to_list d) d), (prune_names (map_to_list d)).
  split; [|split].
  - unfold prune. io_simpl. by rewrite prune_loop_spec.
  - intros k n. rewrite prune_dir_lookup. split.
    + intros [Hk Hall]. split; [done|]. apply Hall. by apply elem_of_map_to_list.
    + intros [Hk Hst]. split; [done|]. intros n' Hn'.
      apply elem_of_map_to_list in Hn'. congruence.
  - intros k. unfold prune_names. rewrite list_elem_of_omap. split.
    + intros ([name n] & Hin & Hl). cbn [fst snd] in Hl.
      destruct (listed name n) eqn:Hlist; [|discriminate]. injection Hl as ->.
      apply elem_of_map_to_list in Hin. eauto.
    + intros (n & Hk & Hl). exists (k, n).
      split; [by apply elem_of_map_to_list|]. cbn [fst snd]. by rewrite Hl.
Qed.

(** *** The manifest and the summary *)

Lemma write_text_spec (root name text : string) (d : gmap string node)
    (out : list string) (cs : list call) :
  (forall n, d !! name = Some n -> is_dir n = false /\ is_pinned n = false) ->
  write_text root name text (World (Some d) out cs) =
  (Ok tt, World (Some (<[name := File text false]> d)) out cs).
Proof.
  intros Hd. unfold write_text. io_simpl.
  destruct (d !! name) as [[data p|p]|] eqn:Hn; [|by destruct (Hd _ eq_refl)|done].
  destruct (Hd _ eq_refl) as [_ Hp]. cbn in Hp. by subst p.
Qed.

Lemma write_text_ok (root name text : string) (w w' : world) :
  write_text root name text w = (Ok tt, w') ->
  exists d, fs w = Some d /\
    (forall n, d !! name = Some n -> is_dir n = false /\ is_pinned n = false) /\
    w' = World (Some (<[name := File text false]> d)) (stdout w) (calls w).
Proof.
  unfold write_text. io_simpl. destruct (fs w) as [d|] eqn:Hfs; [|discriminate].
  destruct (d !! name) as [[data [|]|p]|] eqn:Hn; try discriminate.
  - intros [= <-]. exists d. rewrite Hn. split_and!; [done| |done].
    intros n ?. by simplify_eq.
  - intros [= <-]. exists d. rewrite Hn. split_and!; [done| |done].
    intros n ?. by simplify_eq.
Qed.

(** when [write_text] raises, the directory is as it was and the path is a
    directory or a file that cannot be written *)
Lemma write_text_raise (root name text : string) (w w' : world) (e : exn) :
  write_text root name text w = (Raise e, w') ->
  w' = w /\
  (is_Some (fs w) ->
   exists n, children w !! name = Some n /\ (is_dir n = true \/ is_pinned n = true)).
Proof.
  unfold write_text, children. io_simpl. destruct (fs w) as [d|] eqn:Hfs.
  - cbn [default from_option id].
    destruct (d !! name) as [[data [|]|p]|] eqn:Hn; intros [= <- <-];
      (split; [done|]); intros _; eexists; split; eauto.
  - intros [= <- <-]. split; [done|]. by intros [? [=]].
Qed.

Lemma status_line_spec (root S : string) (w : world) :
  exists line,
    status_line root S w = (Ok tt, World (fs w) (stdout w ++ [line]) (calls w)).
Proof. unfold status_line. io_simpl. eauto. Qed.

Lemma status_lines_spec (root : string) (l : list string) (w : world) :
  exists lines,
    mapM (status_line root) l w =
    (Ok (const tt <$> l), World (fs w) (stdout w ++ lines) (calls w)).
Proof.
  revert w. induction l as [|S l IH]; intros w.
  - exists []. cbn. by rewrite app_nil_r, world_eta.
  - cbn [mapM]. rewrite bind_unfold.
    destruct (status_line_spec root S w) as [line ->].
    rewrite bind_unfold. edestruct IH as [lines ->]. io_simpl.
    eexists. by rewrite <- app_assoc.
Qed.

Lemma report_spec (root : string) (pruned : list string) (w : world) :
  exists lines,
    report root pruned w = (Ok tt, World (fs w) (stdout w ++ lines) (calls w)).
Proof.
  unfold report. io_simpl.
  edestruct status_lines_spec as [lines ->]. io_simpl.
  destruct pruned; io_simpl; eexists; by rewrite <- !app_assoc.
Qed.

End RunFacts.

(** ** The selector *)

Lemma truthy_VStr (v : value) : truthy v = true -> exists s, v = VStr s /\ s <> "".
Proof.
  destruct v as [|s]; [discriminate|]. cbn. intros H. exists s. split; [done|].
  intros ->. discriminate.
Qed.

Lemma py_or_truthy (a b : value) : truthy (py_or a b) = truthy a || truthy b.
Proof. unfold py_or. by destruct (truthy a) eqn:Ha. Qed.

Lemma choose_one_spec (wanted : gset string) (fi : entry) :
  choose_one wanted fi =
  if keeps_by_name wanted fi && has_url fi then Some (annotate fi) else None.
Proof.
  unfold choose_one, keeps_by_name, has_url, annotate, entry_name.
  rewrite !py_or_truthy, nonempty_normalize.
  destruct (truthy (dget fi "download_url") || _).
  - destruct (fi !! "name") as [[|n]|] eqn:Hname;
      cbn [default from_option id truthy py_str negb orb]; [done| |done].
    destruct (String.eqb n "") eqn:Hn.
    + apply String.eqb_eq in Hn as ->. done.
    + cbn [negb orb]. unfold looks_like_attention_fmri.
      destruct (Py.endswith _ _ && _ && _); cbn [negb andb]; [|done].
      destruct (_normalize_sub_code n) as [sub|]; cbn [default from_option id]; [|done].
      by case_bool_decide.
  - rewrite andb_false_r.
    by destruct (truthy (default (VStr "") (fi !! "name"))).
Qed.

Lemma choose_spec (wanted : gset string) (files : list entry) :
  choose wanted files =
  annotate <$> filter (fun fi => keeps_by_name wanted fi && has_url fi) files.
Proof.
  unfold choose. induction files as [|fi files IH]; [done|].
  cbn [omap list_omap]. fold (omap (choose_one wanted) files).
  rewrite IH, choose_one_spec, filter_cons.
  destruct (keeps_by_name wanted fi && has_url fi); by rewrite decide_bool_decide.
Qed.

Lemma dict_get_SUB_TO_S (sub : string) :
  sub ∈ canonical_codes ->
  exists S, dict_get SUB_TO_S sub = Some S /\ S ∈ short_codes /\ dict_get S_TO_SUB S = Some sub.
Proof.
  unfold canonical_codes, short_codes. intros H.
  repeat (apply elem_of_cons in H as [->|H];
          [eexists; split; [reflexivity|split; [set_solver|reflexivity]]|]).
  by apply elem_of_nil in H.
Qed.

Lemma flat_name_allowed (S : string) :
  S ∈ short_codes -> flat_name S ∈ allowed /\ flat_name S <> manifest_name.
Proof.
  unfold short_codes. intros H.
  repeat (apply elem_of_cons in H as [->|H]; [split; [vm_compute; set_solver|discriminate]|]).
  by apply elem_of_nil in H.
Qed.

Lemma manifest_name_allowed : manifest_name ∈ allowed.
Proof. unfold allowed. set_solver. Qed.

Lemma keeps_by_name_inv (wanted : gset string) (fi : entry) :
  keeps_by_name wanted fi = true ->
  exists n sub S,
    fi !! "name" = Some (VStr n) /\ looks_like_attention_fmri n = true /\
    _normalize_sub_code n = Some sub /\ sub ∈ wanted /\
    dict_get SUB_TO_S sub = Some S /\ S ∈ short_codes /\
    annotate fi = <["__S" := VStr S]> (<["__sub" := VStr sub]> fi).
Proof.
  unfold keeps_by_name, annotate, looks_like_attention_fmri.
  intros H. apply andb_prop in H as [Hlook Hsub].
  destruct (_normalize_sub_code (entry_name fi)) as [sub|] eqn:Hn; [|discriminate].
  apply bool_decide_eq_true in Hsub.
  destruct (dict_get_SUB_TO_S sub) as (S & HS & Hshort & _);
    [by eapply _normalize_sub_code_canonical|].
  assert (fi !! "name" = Some (VStr (entry_name fi))) as Hname.
  { unfold entry_name in *.
    destruct (fi !! "name") as [[|n]|]; [by vm_compute in Hn|done|by vm_compute in Hn]. }
  exists (entry_name fi), sub, S. cbn [default from_option id]. rewrite HS.
  split_and!; done.
Qed.

(** what the first loop guarantees about each chosen entry *)
Lemma chosen_entry (wanted : gset string) (files : list entry) (fi' : entry) :
  fi' ∈ choose wanted files ->
  exists fi n sub S,
    fi ∈ files /\ has_url fi = true /\ S ∈ short_codes /\ sub ∈ wanted /\
    _normalize_sub_code n = Some sub /\ dict_get SUB_TO_S sub = Some S /\
    looks_like_attention_fmri n = true /\
    fi' !! "name" = Some (VStr n) /\ fi !! "name" = Some (VStr n) /\
    fi' !! "__sub" = Some (VStr sub) /\ fi' !! "__S" = Some (VStr S) /\
    fi' !! "download_url" = fi !! "download_url" /\ fi' !! "md5" = fi !! "md5" /\
    target_name fi' = flat_name S.
Proof.
  rewrite choose_spec, list_elem_of_fmap. intros (fi & -> & Hin).
  apply list_elem_of_filter in Hin as [Hkeep Hin].
  apply Is_true_true, andb_prop in Hkeep as [Hkeep Hurl].
  destruct (keeps_by_name_inv _ _ Hkeep) as (n & sub & S & Hname & Hlook & Hn & Hw & HS & Hshort & ->).
  exists fi, n, sub, S. unfold target_name, dget.
  rewrite lookup_insert_eq. rewrite !(lookup_insert_ne _ "__S") by done.
  rewrite lookup_insert_eq. rewrite !lookup_insert_ne by done.
  split_and!; done.
Qed.

Section MainFacts.

Context (E : env).

Lemma main_plan (cfg_target root : string) (article : Z) (chosen : list entry) (w : world) :
  plan E cfg_target = Some (root, article, chosen) ->
  main E cfg_target w =
  match chosen with
  | [] => print "No matching attention fMRI files found." (started article w)
  | _ => (download_all E root chosen ≫= normalize E root article) (started article w)
  end.
Proof.
  unfold plan, main, started.
  destruct (dict_get _ _) as [target|]; [|discriminate].
  destruct (select_subjects _) as [subs|] eqn:Hsel; [|discriminate].
  destruct (figshare E _) as [meta|] eqn:Hfig; [|discriminate].
  intros [= <- <- <-]. unfold mkdir, fetch_figshare_files. io_simpl.
  rewrite Hfig. io_simpl. by destruct (choose _ _).
Qed.

Lemma main_bad_subject (cfg_target : string) (target : target) (bad : string) (w : world) :
  dict_get (filelist E) cfg_target = Some target ->
  first_bad (default [] (subjects target)) = Some bad ->
  main E cfg_target w =
  (Raise (ValueError ("Unrecognized subject: " +:+ bad)),
   World (Some (children w)) (stdout w) (calls w)).
Proof.
  intros Ht Hbad. unfold main, mkdir. rewrite Ht. io_simpl.
  by rewrite (select_subjects_bad _ _ Hbad).
Qed.

Lemma normalize_ok (root : string) (article : Z) (manifest : list manifest_record)
    (w w' : world) :
  normalize E root article manifest w = (Ok tt, w') ->
  exists d d1 names p lines,
    fs w = Some d /\
    (forall k n, d1 !! k = Some n <-> d !! k = Some n /\ stays k n = true) /\
    (forall k, k ∈ names <-> exists n, d !! k = Some n /\ listed k n = true) /\
    (forall q, d !! manifest_name <> Some (Dir q)) /\
    w' = World (Some (<[manifest_name :=
                 File (json_dumps E (ManifestDoc article root S_TO_SUB SUB_TO_S manifest names)) p]> d1))
               (stdout w ++ lines) (calls w).
Proof.
  unfold normalize. intros H.
  destruct w as [[d|] out cs]; [|by cbn in H].
  destruct (prune_spec root d out cs) as (d1 & names & Hprune & Hd1 & Hnames).
  rewrite (bind_ok _ _ _ _ _ Hprune) in H.
  apply bind_ok_inv in H as ([] & w1 & Hw & Hrep).
  apply write_text_ok in Hw as (d1' & [= <-] & Hnd & ->).
  cbn [fs stdout calls] in Hrep. set (p := false) in *.
  destruct (report_spec root names
             (World (Some (<[manifest_name := File
                (json_dumps E (ManifestDoc article root S_TO_SUB SUB_TO_S manifest names)) p]> d1))
                out cs)) as [lines Hlines].
  rewrite Hlines in Hrep. injection Hrep as <-.
  exists d, d1, names, p, lines. split_and!; try done.
  intros q Hq. destruct (Hnd (Dir q)) as [Hdir _]; [|discriminate Hdir].
  apply Hd1. split; [done|].
  unfold stays. rewrite bool_decide_eq_true_2; [done|apply manifest_name_allowed].
Qed.

Lemma normalize_ok_manifest (root : string) (article : Z) (manifest : list manifest_record)
    (w w' : world) :
  normalize E root article manifest w = (Ok tt, w') ->
  exists text, children w' !! manifest_name = Some (File text false).
Proof.
  unfold normalize. intros H.
  destruct w as [[d|] out cs]; [|by cbn in H].
  destruct (prune_spec root d out cs) as (d1 & names & Hprune & _).
  rewrite (bind_ok _ _ _ _ _ Hprune) in H.
  apply bind_ok_inv in H as ([] & w1 & Hw & Hrep).
  apply write_text_ok in Hw as (d1' & [= <-] & _ & ->).
  edestruct report_spec as [lines Hlines]. rewrite Hlines in Hrep. injection Hrep as <-.
  eexists. unfold children. cbn [fs default from_option id]. apply lookup_insert_eq.
Qed.

Lemma normalize_succeeds (root : string) (article : Z) (manifest : list manifest_record)
    (w : world) (d : gmap string node) :
  fs w = Some d ->
  (forall n, d !! manifest_name = Some n -> is_dir n = false /\ is_pinned n = false) ->
  exists w', normalize E root article manifest w = (Ok tt, w').
Proof.
  intros Hfs Hnd. destruct w as [o out cs]. cbn in Hfs. subst o.
  unfold normalize.
  destruct (prune_spec root d out cs) as (d1 & names & Hprune & Hd1 & Hnames).
  rewrite (bind_ok _ _ _ _ _ Hprune).
  assert (forall n, d1 !! manifest_name = Some n -> is_dir n = false /\ is_pinned n = false)
    as Hw by (intros n Hn; apply Hd1 in Hn as [Hn _]; by apply Hnd).
  rewrite (bind_ok _ _ _ _ _ (write_text_spec root manifest_name _ d1 out cs Hw)).
  edestruct report_spec as [lines ->]. eauto.
Qed.

End MainFacts.

(** ** The existence check *)

Lemma fetches_app (cs1 cs2 : list call) : fetches (cs1 ++ cs2) = fetches cs1 + fetches cs2.
Proof. unfold fetches. by rewrite filter_app, length_app. Qed.

Lemma fetches_probe (E : env) (url : value) : fetches (probe_calls E url) = 0.
Proof. unfold probe_calls. destruct url; [done|]. by destruct (tqdm E). Qed.

Lemma fetches_retrieve (url : value) (dest : string) : fetches [Urlretrieve url dest] = 1.
Proof. reflexivity. Qed.

Lemma download_step_spec (E : env) (name url : value) (root fname : string) (w : world) :
  download_step E name url root fname w =
  match children w !! fname with
  | Some _ =>
      (Ok tt, World (fs w) (stdout w ++ ["Exists, skipping: " +:+ path_join root fname]) (calls w))
  | None =>
      let out := stdout w ++ ["Downloading " +:+ py_str name +:+ " → " +:+ path_join root fname] in
      let cs := calls w ++ probe_calls E url ++ [Urlretrieve url (path_join root fname)] in
      match http_get E url with
      | Ok body => (Ok tt, World (Some (<[fname := File body false]> (children w))) out cs)
      | Raise e => (Raise e, World (fs w) out cs)
      end
  end.
Proof.
  unfold download_step. io_simpl. fold (children w).
  destruct (children w !! fname) as [n|] eqn:Hn; [done|].
  unfold _progress_urlretrieve, urlretrieve, probe, probe_calls.
  destruct (tqdm E), url as [|u]; io_simpl;
    destruct (http_get E _) as [body|e]; io_simpl;
    by rewrite ?app_nil_l, <- ?app_assoc.
Qed.

Lemma plan_chosen (E : env) (cfg_target root : string) (article : Z) (chosen : list entry) :
  plan E cfg_target = Some (root, article, chosen) ->
  exists wanted files, chosen = choose wanted files.
Proof.
  unfold plan. destruct (dict_get _ _) as [target|]; [|discriminate].
  destruct (select_subjects _) as [subs|]; [|discriminate].
  destruct (figshare E _) as [meta|]; [|discriminate].
  intros [= <- <- <-]. eauto.
Qed.

(** ** A whole run *)

Lemma children_started (article : Z) (w : world) : children (started article w) = children w.
Proof. reflexivity. Qed.

Lemma children_Some (w : world) (d : gmap string node) : fs w = Some d -> children w = d.
Proof. unfold children. by intros ->. Qed.

Lemma chosen_target_allowed (wanted : gset string) (files : list entry) (fi : entry) :
  fi ∈ choose wanted files ->
  target_name fi ∈ allowed /\ target_name fi <> manifest_name /\
  is_Some (fi !! "name") /\ is_Some (fi !! "__S").
Proof.
  intros Hin.
  destruct (chosen_entry _ _ _ Hin)
    as (fi0 & n & sub & S & _ & _ & Hshort & _ & _ & _ & _ & Hname & _ & _ & HS & _ & _ & ->).
  destruct (flat_name_allowed S Hshort). rewrite Hname, HS. eauto.
Qed.

Section WholeRun.

Context (E : env).

Lemma downloads_children (root : string) (wanted : gset string) (files : list entry)
    (w w1 : world) (recs : list manifest_record) :
  download_all E root (choose wanted files) w = (Ok recs, w1) ->
  (forall k, k ∉ allowed -> children w1 !! k = children w !! k) /\
  (forall k, is_Some (children w1 !! k) <->
             is_Some (children w !! k) \/
             exists fi, fi ∈ choose wanted files /\ k = target_name fi) /\
  (forall k q, children w1 !! k = Some (Dir q) -> children w !! k = Some (Dir q)).
Proof.
  intros H.
  destruct (download_all_ok _ _ _ _ _ _ H) as (_ & Hmono & Hnew & Hrec & _).
  split_and!.
  - intros k Hk. destruct (children w !! k) as [n|] eqn:Hn; [by apply Hmono|].
    destruct (children w1 !! k) as [n|] eqn:Hn1; [|done].
    destruct (Hnew _ _ Hn Hn1) as (fi & body & Hin & -> & _).
    by apply chosen_target_allowed in Hin as [? _].
  - intros k. split.
    + intros [n Hn1]. destruct (children w !! k) as [m|] eqn:Hn; [left; eauto|].
      destruct (Hnew _ _ Hn Hn1) as (fi & body & Hin & -> & _). right. eauto.
    + intros [[n Hn]|(fi & Hin & ->)]; [by rewrite (Hmono _ _ Hn)|].
      apply list_elem_of_lookup in Hin as [i Hi].
      destruct (Forall2_lookup_l _ _ _ _ _ Hrec Hi) as (r & _ & n & Hn & _). eauto.
  - intros k q Hq. destruct (children w !! k) as [n|] eqn:Hn.
    + pose proof (Hmono _ _ Hn) as Hn1. congruence.
    + by destruct (Hnew _ _ Hn Hq) as (fi & body & _ & _ & ?).
Qed.

Lemma downloads_manifest (root : string) (wanted : gset string) (files : list entry)
    (w w1 : world) (recs : list manifest_record) :
  download_all E root (choose wanted files) w = (Ok recs, w1) ->
  children w1 !! manifest_name = children w !! manifest_name.
Proof.
  intros H. destruct (download_all_ok _ _ _ _ _ _ H) as (_ & Hmono & Hnew & _).
  destruct (children w !! manifest_name) as [n|] eqn:Hn; [by apply Hmono|].
  destruct (children w1 !! manifest_name) as [n|] eqn:Hn1; [|done].
  destruct (Hnew _ _ Hn Hn1) as (fi & body & Hin & Heq & _).
  by destruct (chosen_target_allowed _ _ _ Hin) as (_ & ? & _).
Qed.

Lemma main_ok_inv (cfg_target root : string) (article : Z) (chosen : list entry)
    (w w' : world) :
  plan E cfg_target = Some (root, article, chosen) -> chosen <> [] ->
  main E cfg_target w = (Ok tt, w') ->
  exists recs w1,
    download_all E root chosen (started article w) = (Ok recs, w1) /\
    normalize E root article recs w1 = (Ok tt, w').
Proof.
  intros Hplan Hne. rewrite (main_plan _ _ _ _ _ _ Hplan).
  destruct chosen as [|fi rest]; [done|]. apply bind_ok_inv.
Qed.

End WholeRun.

(** ** Entries of one subject *)

Lemma short_code_of_sub (sub1 sub2 S1 S2 : string) :
  sub1 ∈ canonical_codes -> sub2 ∈ canonical_codes ->
  dict_get SUB_TO_S sub1 = Some S1 -> dict_get SUB_TO_S sub2 = Some S2 ->
  flat_name S1 = flat_name S2 -> sub1 = sub2.
Proof.
  unfold canonical_codes. intros H1 H2.
  repeat (apply elem_of_cons in H1 as [->|H1]);
    repeat (apply elem_of_cons in H2 as [->|H2]);
    try (by apply elem_of_nil in H1); try (by apply elem_of_nil in H2);
    intros [= <-] [= <-]; try done; by vm_compute.
Qed.

Lemma same_code_same_target (wanted : gset string) (files : list entry) (f g : entry) :
  f ∈ choose wanted files -> g ∈ choose wanted files ->
  (dget f "__sub" = dget g "__sub" <-> target_name f = target_name g).
Proof.
  intros Hf Hg.
  destruct (chosen_entry _ _ _ Hf)
    as (f0 & n1 & sub1 & S1 & _ & _ & _ & _ & Hn1 & HS1 & _ & _ & _ & Hsub1 & _ & _ & _ & ->).
  destruct (chosen_entry _ _ _ Hg)
    as (g0 & n2 & sub2 & S2 & _ & _ & _ & _ & Hn2 & HS2 & _ & _ & _ & Hsub2 & _ & _ & _ & ->).
  unfold dget. rewrite Hsub1, Hsub2. cbn [default from_option id].
  apply _normalize_sub_code_canonical in Hn1, Hn2. split.
  - intros [= ->]. congruence.
  - intros Heq. f_equal. by eapply short_code_of_sub.
Qed.


(** * The claims of the specification *)

(** ** Subject selection *)

(** C3: every spec string among "S1", "s1", "sub-06", "SUB_06" is resolved
    by [select_subjects] to the canonical code sub-06; a spec string that is
    no short code (whatever its case) and that normalizes to none of sub-01,
    sub-04, sub-06, sub-07 makes [select_subjects] raise a [ValueError], on
    every list that holds it. *)
Theorem select_subjects_known_and_unknown :
  (forall s, s ∈ ["S1"; "s1"; "sub-06"; "SUB_06"] -> select_subjects [s] = Ok ["sub-06"]) /\
  (forall specs s,
     s ∈ specs ->
     Py.upper s ∉ short_codes ->
     (forall c, c ∈ canonical_codes -> _normalize_sub_code s <> Some c) ->
     (exists bad, bad ∈ specs /\
        select_subjects specs = Raise (ValueError ("Unrecognized subject: " +:+ bad))) /\
     select_subjects [s] = Raise (ValueError ("Unrecognized subject: " +:+ s))).
Proof.
  split.
  - intros s Hs.
    repeat (apply elem_of_cons in Hs as [->|Hs]; [by vm_compute|]).
    by apply elem_of_nil in Hs.
  - intros specs s Hin Hshort Hnorm.
    assert (resolve s = None) as Hres.
    { unfold resolve. apply dict_get_S_TO_SUB_None in Hshort. rewrite Hshort.
      destruct (_normalize_sub_code s) as [c|] eqn:Hc; [|done].
      destruct (Hnorm c); [by eapply _normalize_sub_code_canonical|done]. }
    split.
    + destruct (first_bad_exists specs s Hin Hres) as [bad Hbad].
      exists bad. split; [by apply first_bad_Some in Hbad as [? _]|].
      by apply select_subjects_bad.
    + apply select_subjects_bad. cbn [first_bad]. by rewrite Hres.
Qed.

Lemma select_subjects_known_and_unknown_witness :
  select_subjects ["SUB_06"] = Ok ["sub-06"] /\
  ((exists bad, bad ∈ ["S1"; "bob"] /\
      select_subjects ["S1"; "bob"] = Raise (ValueError ("Unrecognized subject: " +:+ bad))) /\
   select_subjects ["bob"] = Raise (ValueError "Unrecognized subject: bob")).
Proof.
  split.
  - apply (proj1 select_subjects_known_and_unknown). set_solver.
  - apply (proj2 select_subjects_known_and_unknown ["S1"; "bob"] "bob").
    + set_solver.
    + vm_compute. set_solver.
    + intros c _. vm_compute. discriminate.
Defined.

(** C9, as stated, fails on the empty list of specs: the result is the four
    codes in the order of the table, which is not sorted. *)
Lemma select_subjects_empty_unsorted :
  select_subjects [] = Ok ["sub-06"; "sub-07"; "sub-04"; "sub-01"] /\
  ~ Sorted str_le ["sub-06"; "sub-07"; "sub-04"; "sub-01"].
Proof.
  split; [reflexivity|]. intros H.
  apply Sorted_inv in H as [H _]. apply Sorted_inv in H as [_ H].
  apply HdRel_inv in H. vm_compute in H. discriminate.
Qed.

(** C9 (amended): whenever [select_subjects] does not raise, its result has
    no duplicates and holds only codes among sub-01, sub-04, sub-06, sub-07;
    on a non-empty list of specs it is sorted, and it holds exactly the codes
    the specs resolve to; on the empty list it is the four canonical codes in
    the order of the table: sub-06, sub-07, sub-04, sub-01. *)
Theorem select_subjects_result (specs r : list string) :
  select_subjects specs = Ok r ->
  NoDup r /\
  (forall c, c ∈ r -> c ∈ canonical_codes) /\
  (specs <> [] ->
     StronglySorted str_le r /\
     forall c, c ∈ r <-> exists s, s ∈ specs /\ resolve s = Some c) /\
  (specs = [] -> r = ["sub-06"; "sub-07"; "sub-04"; "sub-01"]).
Proof.
  intros H. destruct (select_subjects_ok specs r H) as (Hnd & Hcanon & Hsorted).
  split_and!; try done. intros ->. by injection H as <-.
Qed.

Lemma select_subjects_result_witness :
  NoDup ["sub-01"; "sub-07"] /\
  (forall c, c ∈ ["sub-01"; "sub-07"] -> c ∈ canonical_codes) /\
  (["sub_7"; "s4"; "SUB-01"] <> [] ->
     StronglySorted str_le ["sub-01"; "sub-07"] /\
     forall c, c ∈ ["sub-01"; "sub-07"] <->
               exists s, s ∈ ["sub_7"; "s4"; "SUB-01"] /\ resolve s = Some c) /\
  (["sub_7"; "s4"; "SUB-01"] = [] -> ["sub-01"; "sub-07"] = ["sub-06"; "sub-07"; "sub-04"; "sub-01"]).
Proof.
  apply (select_subjects_result ["sub_7"; "s4"; "SUB-01"] ["sub-01"; "sub-07"]).
  vm_compute. reflexivity.
Defined.

Lemma first_bad_split (specs : list string) (bad : string) :
  first_bad specs = Some bad ->
  exists pre post,
    specs = pre ++ bad :: post /\
    Forall (fun x => is_Some (resolve x)) pre /\ resolve bad = None.
Proof.
  induction specs as [|x rest IH]; cbn [first_bad]; [discriminate|].
  destruct (resolve x) as [c|] eqn:Hx.
  - intros (pre & post & -> & Hpre & Hbad)%IH.
    exists (x :: pre), post. split_and!; [done| |done]. constructor; [by rewrite Hx|done].
  - intros [= <-]. exists [], rest. split_and!; [done|constructor|done].
Qed.

(** C7, as stated, fails on a list with two strings that parse to no code:
    the message names the first of them, and the second, though a bad input
    of the list too, is not named. *)
Lemma second_bad_subject_is_not_named :
  "alice" ∈ ["bob"; "alice"] /\ resolve "alice" = None /\
  select_subjects ["bob"; "alice"] = Raise (ValueError "Unrecognized subject: bob") /\
  Py.contains "alice" "Unrecognized subject: bob" = false.
Proof. split_and!; [set_solver|by vm_compute..]. Qed.

(** C7 (amended): when the list of subject specs of the target holds a
    string that parses to no known subject code, [select_subjects] raises a
    [ValueError] whose message names the first such string of the list
    (every spec before it parses), [main] ends with that error, and from the
    moment it is raised nothing is downloaded and the destination directory
    is not touched: the calls made, the output and the children of the
    directory are those of the start. *)
Theorem first_unrecognized_subject_is_fatal (E : env) (cfg_target : string) (target : target)
    (specs : list string) (s : string) (w : world) :
  dict_get (filelist E) cfg_target = Some target ->
  subjects target = Some specs ->
  s ∈ specs ->
  resolve s = None ->
  exists pre bad post w',
    specs = pre ++ bad :: post /\
    Forall (fun x => is_Some (resolve x)) pre /\ resolve bad = None /\
    select_subjects specs = Raise (ValueError ("Unrecognized subject: " +:+ bad)) /\
    main E cfg_target w = (Raise (ValueError ("Unrecognized subject: " +:+ bad)), w') /\
    calls w' = calls w /\ children w' = children w /\ stdout w' = stdout w.
Proof.
  intros Ht Hs Hin Hres.
  destruct (first_bad_exists specs s Hin Hres) as [bad Hbad].
  destruct (first_bad_split _ _ Hbad) as (pre & post & Hsplit & Hpre & Hbres).
  exists pre, bad, post, (World (Some (children w)) (stdout w) (calls w)).
  split_and!; try done.
  - by apply select_subjects_bad.
  - apply main_bad_subject with (target := target); [done|]. by rewrite Hs.
Qed.

Lemma first_unrecognized_subject_is_fatal_witness :
  exists pre bad post w',
    ["S4"; "bob"; "alice"] = pre ++ bad :: post /\
    Forall (fun x => is_Some (resolve x)) pre /\ resolve bad = None /\
    select_subjects ["S4"; "bob"; "alice"] =
      Raise (ValueError ("Unrecognized subject: " +:+ bad)) /\
    main (Ex.env_of [Ex.sub01] (Some ["S4"; "bob"; "alice"])) "fmri_attention" Ex.cluttered =
      (Raise (ValueError ("Unrecognized subject: " +:+ bad)), w') /\
    calls w' = calls Ex.cluttered /\ children w' = children Ex.cluttered /\
    stdout w' = stdout Ex.cluttered.
Proof.
  apply (first_unrecognized_subject_is_fatal
           (Ex.env_of [Ex.sub01] (Some ["S4"; "bob"; "alice"])) "fmri_attention"
           (Target (Some "/data/att") None (Some ["S4"; "bob"; "alice"]))
           ["S4"; "bob"; "alice"] "alice" Ex.cluttered).
  - reflexivity.
  - reflexivity.
  - set_solver.
  - vm_compute. reflexivity.
Defined.

(** C8: when the selector keeps no catalog entry, [main] prints one message
    and returns: the only call made is the request for the catalog, so
    nothing is downloaded, and the children of the destination are those of
    the start, so nothing is pruned and no manifest is written. *)
Theorem no_match_returns_cleanly (E : env) (cfg_target root : string) (article : Z) (w : world) :
  plan E cfg_target = Some (root, article, []) ->
  main E cfg_target w =
  (Ok tt,
   World (Some (children w))
         (stdout w ++ ["No matching attention fMRI files found."])
         (calls w ++ [Urlopen (FIGSHARE_API_ARTICLE article)])).
Proof. intros Hplan. by rewrite (main_plan _ _ _ _ _ _ Hplan). Qed.

Lemma no_match_returns_cleanly_witness :
  main (Ex.env_of [Ex.sub99] None) "fmri_attention" Ex.cluttered =
  (Ok tt,
   World (Some (children Ex.cluttered))
         (stdout Ex.cluttered ++ ["No matching attention fMRI files found."])
         (calls Ex.cluttered ++ [Urlopen (FIGSHARE_API_ARTICLE 13474629)])).
Proof.
  apply (no_match_returns_cleanly (Ex.env_of [Ex.sub99] None) "fmri_attention" "/data/att").
  vm_compute. reflexivity.
Defined.

(** ** The selector *)

(** C4, as stated, fails on an entry that has a matching name and no URL:
    the first loop drops it. *)
Lemma matching_name_without_url_is_dropped :
  keeps_by_name Ex.all_wanted Ex.no_url = true /\
  choose Ex.all_wanted [Ex.no_url] = [].
Proof. split; vm_compute; reflexivity. Qed.

(** C4 (amended): the selector keeps, in the order of the catalog, exactly
    the entries whose name ends in .h5 and contains "attention" and "vc"
    (case ignored), whose derived subject code is in the wanted set, and
    that carry a non-empty URL in [download_url], [url] or [supplied_url];
    each one is annotated with its subject code and short code. From a
    catalog with sub-01_attention_vc.h5 and sub-99_other.h5 (both with a
    URL) it returns only the first, with subject code sub-01 and short code
    S4. *)
Theorem selector_keeps_named_entries_with_url :
  (forall wanted files,
     choose wanted files =
     annotate <$> filter (fun fi => keeps_by_name wanted fi && has_url fi) files) /\
  choose Ex.all_wanted [Ex.sub01; Ex.sub99] = [annotate Ex.sub01] /\
  annotate Ex.sub01 !! "__sub" = Some (VStr "sub-01") /\
  annotate Ex.sub01 !! "__S" = Some (VStr "S4").
Proof.
  split; [apply choose_spec|]. split_and!; vm_compute; reflexivity.
Qed.

(** ** The downloader *)

(** C2: an entry whose URL is only in [url] is chosen by the first loop, and
    the second loop then fails on [fi["download_url"]] with a [KeyError],
    before any download. *)
Theorem url_only_entry_raises_KeyError :
  choose Ex.all_wanted [Ex.url_only] = [annotate Ex.url_only] /\
  has_url Ex.url_only = true /\
  Ex.url_only !! "download_url" = None /\
  main (Ex.env_of [Ex.url_only] None) "fmri_attention" Ex.fresh =
  (Raise (KeyError "download_url"),
   World (Some ∅) [] [Urlopen (FIGSHARE_API_ARTICLE 13474629)]).
Proof. split_and!; vm_compute; reflexivity. Qed.

(** C6: the existence check of the downloader. When the destination path
    exists, the step makes no call at all (so no download) and leaves the
    directory, hence the file, as it is; when it does not exist, the step
    makes exactly one download call, for the entry's URL and that path. So a
    step that succeeded, run again, downloads nothing. *)
Theorem download_is_idempotent_by_existence (E : env) (name url : value)
    (root fname : string) (w w' : world) (r : result unit) :
  download_step E name url root fname w = (r, w') ->
  (is_Some (children w !! fname) ->
     r = Ok tt /\ calls w' = calls w /\ fs w' = fs w /\ fetches (calls w') = fetches (calls w)) /\
  (children w !! fname = None ->
     calls w' = calls w ++ probe_calls E url ++ [Urlretrieve url (path_join root fname)] /\
     fetches (calls w') = S (fetches (calls w))) /\
  (r = Ok tt ->
     forall name2 url2, exists w'',
       download_step E name2 url2 root fname w' = (Ok tt, w'') /\
       calls w'' = calls w' /\ fs w'' = fs w').
Proof.
  rewrite download_step_spec. intros H. split_and!.
  - intros [n Hn]. rewrite Hn in H. by injection H as <- <-.
  - intros Hn. rewrite Hn in H.
    assert (calls w' = calls w ++ probe_calls E url ++ [Urlretrieve url (path_join root fname)])
      as Hcalls by (destruct (http_get E url); by injection H as <- <-).
    split; [done|]. rewrite Hcalls, !fetches_app, fetches_probe, fetches_retrieve. lia.
  - intros -> name2 url2. rewrite download_step_spec.
    assert (is_Some (children w' !! fname)) as [n Hn].
    { destruct (children w !! fname) as [n|] eqn:Hn.
      - injection H as <-. unfold children in *. cbn [fs]. by rewrite Hn.
      - destruct (http_get E url); [|discriminate]. injection H as <-.
        unfold children at 1. cbn [fs default from_option id]. rewrite lookup_insert_eq. eauto. }
    rewrite Hn. eauto.
Qed.

Lemma download_is_idempotent_by_existence_witness :
  (is_Some (children Ex.cached !! "S4_attention.h5") ->
     Ok tt = Ok tt /\
     calls (World (fs Ex.cached) ["Exists, skipping: /data/att/S4_attention.h5"] []) = calls Ex.cached /\
     fs (World (fs Ex.cached) ["Exists, skipping: /data/att/S4_attention.h5"] []) = fs Ex.cached /\
     fetches (calls (World (fs Ex.cached) ["Exists, skipping: /data/att/S4_attention.h5"] [])) =
       fetches (calls Ex.cached)) /\
  (children Ex.cached !! "S4_attention.h5" = None ->
     calls (World (fs Ex.cached) ["Exists, skipping: /data/att/S4_attention.h5"] []) =
       calls Ex.cached ++ probe_calls (Ex.env_of [Ex.sub01] None) (VStr "http://x/1") ++
       [Urlretrieve (VStr "http://x/1") (path_join "/data/att" "S4_attention.h5")] /\
     fetches (calls (World (fs Ex.cached) ["Exists, skipping: /data/att/S4_attention.h5"] [])) =
       S (fetches (calls Ex.cached))) /\
  (Ok tt = Ok tt ->
     forall name2 url2, exists w'',
       download_step (Ex.env_of [Ex.sub01] None) name2 url2 "/data/att" "S4_attention.h5"
         (World (fs Ex.cached) ["Exists, skipping: /data/att/S4_attention.h5"] []) = (Ok tt, w'') /\
       calls w'' = calls (World (fs Ex.cached) ["Exists, skipping: /data/att/S4_attention.h5"] []) /\
       fs w'' = fs (World (fs Ex.cached) ["Exists, skipping: /data/att/S4_attention.h5"] [])).
Proof.
  apply (download_is_idempotent_by_existence (Ex.env_of [Ex.sub01] None)
           (VStr "sub-01_attention_vc.h5") (VStr "http://x/1") "/data/att" "S4_attention.h5"
           Ex.cached).
  vm_compute. reflexivity.
Defined.

(** ** The destination directory after a run *)

Lemma listed_iff (k : string) (n : node) :
  listed k n = true <-> (k ∉ allowed) /\ (is_dir n = true \/ is_pinned n = false).
Proof.
  unfold listed. rewrite andb_true_iff, negb_true_iff, bool_decide_eq_false, orb_true_iff,
    negb_true_iff. done.
Qed.

Lemma stays_stray (k : string) (n : node) : k ∉ allowed -> stays k n = is_pinned n.
Proof. intros Hk. unfold stays. by rewrite bool_decide_eq_false_2. Qed.

Lemma stays_allowed (k : string) (n : node) : k ∈ allowed -> stays k n = true.
Proof. intros Hk. unfold stays. by rewrite bool_decide_eq_true_2. Qed.

(** C1, as stated, fails when a stray child cannot be removed: the run
    completes, the file is still there, and the manifest does not list it. *)
Lemma pinned_stray_survives :
  fst (main (Ex.env_of [Ex.sub01] None) "fmri_attention" Ex.cluttered) = Ok tt /\
  ("keep.txt" ∉ allowed) /\
  children (snd (main (Ex.env_of [Ex.sub01] None) "fmri_attention" Ex.cluttered)) !! "keep.txt"
    = Some (File "k" true) /\
  children (snd (main (Ex.env_of [Ex.sub01] None) "fmri_attention" Ex.cluttered)) !! manifest_name
    = Some (File (json_dumps (Ex.env_of [Ex.sub01] None)
                    (ManifestDoc 13474629 "/data/att" S_TO_SUB SUB_TO_S
                       [ManifestRecord (VStr "sub-01_attention_vc.h5") "/data/att/S4_attention.h5"
                          (VStr "S4") (VStr "http://x/1") (VStr "abc") (VStr "md5:BODY1")]
                       ["old"; "notes.txt"])) false).
Proof.
  split_and!; [by vm_compute| |by vm_compute|by vm_compute].
  vm_compute. set_solver.
Qed.

(** C1 (amended): after a run that found at least one matching file and
    completed, the destination holds the manifest, written last with the
    list of pruned names; a child whose name is outside the allowed set
    {S1_attention.h5, ..., S4_attention.h5, attention_manifest.json} is
    still there exactly when it was there at the start and cannot be
    removed; the pruned list holds exactly the names outside the allowed set
    of the directories and of the files that can be removed; and a flat file
    of the allowed set is there exactly when it was there at the start or a
    chosen entry was saved under its name. *)
Theorem destination_after_run (E : env) (cfg_target root : string) (article : Z)
    (chosen : list entry) (w w' : world) :
  plan E cfg_target = Some (root, article, chosen) ->
  chosen <> [] ->
  main E cfg_target w = (Ok tt, w') ->
  exists d' recs names p,
    fs w' = Some d' /\
    d' !! manifest_name =
      Some (File (json_dumps E (ManifestDoc article root S_TO_SUB SUB_TO_S recs names)) p) /\
    (forall k n, k ∉ allowed ->
       (d' !! k = Some n <-> children w !! k = Some n /\ is_pinned n = true)) /\
    (forall k, k ∈ names <->
       (k ∉ allowed) /\
       exists n, children w !! k = Some n /\ (is_dir n = true \/ is_pinned n = false)) /\
    (forall k, k ∈ allowed -> k <> manifest_name ->
       (is_Some (d' !! k) <->
        is_Some (children w !! k) \/ exists fi, fi ∈ chosen /\ k = target_name fi)).
Proof.
  intros Hplan Hne Hmain.
  destruct (main_ok_inv _ _ _ _ _ _ _ Hplan Hne Hmain) as (recs & w1 & Hdl & Hnorm).
  destruct (plan_chosen _ _ _ _ _ Hplan) as (wanted & files & ->).
  destruct (downloads_children _ _ _ _ _ _ _ Hdl) as (Hstray & Hflat & _).
  rewrite children_started in Hstray, Hflat.
  destruct (normalize_ok _ _ _ _ _ _ Hnorm) as (d & d1 & names & p & lines & Hfs & Hd1 & Hnames & _ & ->).
  apply children_Some in Hfs. rewrite Hfs in Hstray, Hflat.
  exists (<[manifest_name := File (json_dumps E
            (ManifestDoc article root S_TO_SUB SUB_TO_S recs names)) p]> d1), recs, names, p.
  split_and!.
  - done.
  - apply lookup_insert_eq.
  - intros k n Hk. rewrite lookup_insert_ne by (intros <-; apply Hk, manifest_name_allowed).
    by rewrite Hd1, stays_stray, Hstray.
  - intros k. rewrite Hnames. split.
    + intros (n & Hn & [Hk Hl]%listed_iff). rewrite Hstray in Hn by done. eauto.
    + intros (Hk & n & Hn & Hl). exists n. rewrite Hstray by done.
      split; [done|]. by apply listed_iff.
  - intros k Hk Hkm. rewrite lookup_insert_ne by done. rewrite <- Hflat. split.
    + intros [n [Hn _]%Hd1]. eauto.
    + intros [n Hn]. exists n. apply Hd1. split; [done|]. by apply stays_allowed.
Qed.

Lemma destination_after_run_witness :
  exists d' recs names p,
    fs (snd (main (Ex.env_of [Ex.sub01] None) "fmri_attention" Ex.cluttered)) = Some d' /\
    d' !! manifest_name =
      Some (File (json_dumps (Ex.env_of [Ex.sub01] None)
                    (ManifestDoc 13474629 "/data/att" S_TO_SUB SUB_TO_S recs names)) p) /\
    (forall k n, k ∉ allowed ->
       (d' !! k = Some n <-> children Ex.cluttered !! k = Some n /\ is_pinned n = true)) /\
    (forall k, k ∈ names <->
       (k ∉ allowed) /\
       exists n, children Ex.cluttered !! k = Some n /\
                 (is_dir n = true \/ is_pinned n = false)) /\
    (forall k, k ∈ allowed -> k <> manifest_name ->
       (is_Some (d' !! k) <->
        is_Some (children Ex.cluttered !! k) \/
        exists fi, fi ∈ [annotate Ex.sub01] /\ k = target_name fi)).
Proof.
  apply (destination_after_run (Ex.env_of [Ex.sub01] None) "fmri_attention" "/data/att"
           13474629 [annotate Ex.sub01] Ex.cluttered).
  - vm_compute. reflexivity.
  - discriminate.
  - vm_compute. reflexivity.
Defined.

(** ** The MD5 check *)

(** C5: a run whose chosen entries all carry [download_url] and can be
    fetched (or are already there), and whose manifest path can be written
    (it is neither a directory nor a file that cannot be written),
    completes and writes the manifest whatever the checksums are. Every
    record of the manifest holds the remote MD5 as the catalog gave it and,
    as local MD5, the hash of the file saved for the entry; when the remote
    MD5 is present and differs from the local one, both differing values are
    in the record and the line "MD5 check issue for NAME: MD5 mismatch for
    NAME", "Expected: REMOTE", "Actual:   LOCAL" is printed. *)
Theorem checksum_mismatch_is_not_fatal (E : env) (cfg_target root : string) (article : Z)
    (chosen : list entry) (w : world) :
  plan E cfg_target = Some (root, article, chosen) ->
  chosen <> [] ->
  (forall fi, fi ∈ chosen -> is_Some (fi !! "download_url")) ->
  (forall fi, fi ∈ chosen ->
     is_Some (children w !! target_name fi) \/
     exists body, http_get E (dget fi "download_url") = Ok body) ->
  (forall n, children w !! manifest_name = Some n -> is_dir n = false /\ is_pinned n = false) ->
  exists w' d' recs names p,
    main E cfg_target w = (Ok tt, w') /\
    fs w' = Some d' /\
    d' !! manifest_name =
      Some (File (json_dumps E (ManifestDoc article root S_TO_SUB SUB_TO_S recs names)) p) /\
    Forall2 (fun fi r =>
               api_name r = dget fi "name" /\ md5_remote r = dget fi "md5" /\
               exists n,
                 d' !! target_name fi = Some n /\ md5_local r = local_md5 E n /\
                 forall h,
                   md5_local r = VStr h -> truthy (md5_remote r) = true ->
                   md5_remote r <> VStr h ->
                   ("MD5 check issue for " +:+ py_str (api_name r) +:+ ": " +:+
                    "MD5 mismatch for " +:+ py_str (api_name r) +:+
                    String (ascii_of_nat 10) EmptyString +:+ "Expected: " +:+ py_str (md5_remote r) +:+
                    String (ascii_of_nat 10) EmptyString +:+ "Actual:   " +:+ h) ∈ stdout w')
            chosen recs.
Proof.
  intros Hplan Hne Hurl Hget Hman.
  destruct (plan_chosen _ _ _ _ _ Hplan) as (wanted & files & ->).
  assert (Forall keyed (choose wanted files)) as Hkeys.
  { apply Forall_forall. intros fi Hin.
    destruct (chosen_target_allowed _ _ _ Hin) as (_ & _ & Hname & HS).
    split_and!; auto. }
  destruct (download_all_succeeds E root _ (started article w) Hkeys) as (recs & w1 & Hdl);
    [by rewrite children_started|].
  destruct (download_all_ok _ _ _ _ _ _ Hdl) as (_ & _ & _ & Hrec & _ & _ & Hfs).
  pose proof (downloads_manifest _ _ _ _ _ _ _ Hdl) as Hsame.
  rewrite children_started in Hsame.
  destruct Hfs as [d Hd]; [by eexists|].
  pose proof (children_Some _ _ Hd) as Hch.
  destruct (normalize_succeeds E root article recs w1 d Hd) as [w' Hnorm].
  { intros n Hn. apply Hman. by rewrite <- Hsame, Hch. }
  destruct (normalize_ok _ _ _ _ _ _ Hnorm)
    as (d0 & d1 & names & p & lines & Hd0 & Hd1 & _ & _ & ->).
  rewrite Hd in Hd0. injection Hd0 as <-.
  exists (World (Some (<[manifest_name := File (json_dumps E
            (ManifestDoc article root S_TO_SUB SUB_TO_S recs names)) p]> d1))
            (stdout w1 ++ lines) (calls w1)),
    (<[manifest_name := File (json_dumps E
            (ManifestDoc article root S_TO_SUB SUB_TO_S recs names)) p]> d1), recs, names, p.
  split_and!.
  - rewrite (main_plan _ _ _ _ _ _ Hplan).
    destruct (choose wanted files) as [|fi rest]; [done|].
    by rewrite (bind_ok _ _ _ _ _ Hdl).
  - done.
  - apply lookup_insert_eq.
  - apply Forall2_same_length_lookup in Hrec as [Hlen Hrec].
    apply Forall2_same_length_lookup. split; [done|]. intros i fi r Hi Hr.
    destruct (Hrec i fi r Hi Hr) as (n & Hn & -> & Hlines).
    apply list_elem_of_lookup_2 in Hi.
    destruct (chosen_target_allowed _ _ _ Hi) as (Hal & Hnm & _).
    cbn [api_name md5_remote md5_local record_of]. split_and!; [done|done|].
    exists n. split_and!.
    + rewrite lookup_insert_ne by done. apply Hd1. rewrite <- Hch.
      split; [done|by apply stays_allowed].
    + done.
    + intros h Hh Htruthy Hdiff. cbn [stdout]. apply elem_of_app. left.
      apply Hlines. destruct n as [data q|q]; [|discriminate].
      injection Hh as <-. cbn [verify_lines]. rewrite Htruthy.
      rewrite bool_decide_eq_false_2 by congruence. by left.
Qed.

Lemma checksum_mismatch_is_not_fatal_witness :
  exists w' d' recs names p,
    main (Ex.env_of [Ex.sub01] None) "fmri_attention" Ex.fresh = (Ok tt, w') /\
    fs w' = Some d' /\
    d' !! manifest_name =
      Some (File (json_dumps (Ex.env_of [Ex.sub01] None)
                    (ManifestDoc 13474629 "/data/att" S_TO_SUB SUB_TO_S recs names)) p) /\
    Forall2 (fun fi r =>
               api_name r = dget fi "name" /\ md5_remote r = dget fi "md5" /\
               exists n,
                 d' !! target_name fi = Some n /\ md5_local r = local_md5 (Ex.env_of [Ex.sub01] None) n /\
                 forall h,
                   md5_local r = VStr h -> truthy (md5_remote r) = true ->
                   md5_remote r <> VStr h ->
                   ("MD5 check issue for " +:+ py_str (api_name r) +:+ ": " +:+
                    "MD5 mismatch for " +:+ py_str (api_name r) +:+
                    String (ascii_of_nat 10) EmptyString +:+ "Expected: " +:+ py_str (md5_remote r) +:+
                    String (ascii_of_nat 10) EmptyString +:+ "Actual:   " +:+ h) ∈ stdout w')
            [annotate Ex.sub01] recs.
Proof.
  apply (checksum_mismatch_is_not_fatal (Ex.env_of [Ex.sub01] None) "fmri_attention"
           "/data/att" 13474629 [annotate Ex.sub01] Ex.fresh).
  - vm_compute. reflexivity.
  - discriminate.
  - intros fi ->%list_elem_of_singleton. vm_compute. eauto.
  - intros fi ->%list_elem_of_singleton. right. exists "BODY1". vm_compute. reflexivity.
  - intros n. vm_compute. discriminate.
Defined.

(** ** Several entries of one subject *)

(** C10, as stated, fails when the flat file of the subject is already in
    the destination: two entries of subject sub-01 are matched and none of
    them is fetched, the first no more than the second, and the [md5_local]
    of both records is the hash of the file that was there, not of what the
    URL of the first entry holds. *)
Lemma no_entry_is_fetched_for_a_cached_file :
  download_all (Ex.env_of [] None) "/data/att"
    (choose Ex.all_wanted [Ex.sub01; Ex.sub01_again]) Ex.cached =
  (Ok [ManifestRecord (VStr "sub-01_attention_vc.h5") "/data/att/S4_attention.h5" (VStr "S4")
         (VStr "http://x/1") (VStr "abc") (VStr "md5:OLD");
       ManifestRecord (VStr "SUB_1_Attention_VC.h5") "/data/att/S4_attention.h5" (VStr "S4")
         (VStr "http://x/1b") VNone (VStr "md5:OLD")],
   World (fs Ex.cached)
     ["Exists, skipping: /data/att/S4_attention.h5";
      "MD5 check issue for sub-01_attention_vc.h5: MD5 mismatch for sub-01_attention_vc.h5" +:+
      String (ascii_of_nat 10) "Expected: abc" +:+
      String (ascii_of_nat 10) "Actual:   md5:OLD";
      "Exists, skipping: /data/att/S4_attention.h5"]
     []) /\
  fetches (calls (snd (main (Ex.env_of [Ex.sub01; Ex.sub01_again] None) "fmri_attention"
                         Ex.cached))) = 0 /\
  http_get (Ex.env_of [] None) (VStr "http://x/1") = Ok "BODY1" /\
  hashlib_md5 (Ex.env_of [] None) "BODY1" <> "md5:OLD".
Proof. split_and!; by vm_compute. Qed.

(** C10 (amended): when two chosen entries derive the same subject code, the
    earlier being the first of that subject, in a download loop that
    completes each one gets its own record, with the same [saved_as] path;
    processing the later one makes no call and leaves the directory as it
    is (the existence check skips the download), and its [md5_local] is
    that of the earlier record: the hash of the file at that path. When the
    path was not there at the start, the first entry is the one fetched and
    the file is the body of its URL; when it was there, the first entry is
    not fetched either and the file is the one of the start. *)
Theorem same_subject_entries_share_one_file (E : env) (root : string)
    (wanted : gset string) (files pre mid post : list entry) (fi fj : entry)
    (w w' : world) (recs : list manifest_record) :
  choose wanted files = pre ++ fi :: mid ++ fj :: post ->
  (forall f, f ∈ pre -> dget f "__sub" <> dget fi "__sub") ->
  dget fj "__sub" = dget fi "__sub" ->
  download_all E root (choose wanted files) w = (Ok recs, w') ->
  exists recs1 ri recs2 rj recs3 w1 w2 w3 w4 n,
    recs = recs1 ++ ri :: recs2 ++ rj :: recs3 /\
    length recs1 = length pre /\ length recs2 = length mid /\
    download_all E root pre w = (Ok recs1, w1) /\
    process_file E root fi w1 = (Ok ri, w2) /\
    download_all E root mid w2 = (Ok recs2, w3) /\
    process_file E root fj w3 = (Ok rj, w4) /\
    download_all E root post w4 = (Ok recs3, w') /\
    saved_as rj = saved_as ri /\
    calls w4 = calls w3 /\ fs w4 = fs w3 /\
    children w2 !! target_name fi = Some n /\
    children w' !! target_name fi = Some n /\
    md5_local ri = local_md5 E n /\ md5_local rj = local_md5 E n /\
    match children w !! target_name fi with
    | None =>
        exists body,
          http_get E (dget fi "download_url") = Ok body /\ n = File body false /\
          calls w2 = calls w1 ++ probe_calls E (dget fi "download_url") ++
                     [Urlretrieve (dget fi "download_url") (saved_as ri)]
    | Some n0 => n = n0 /\ calls w2 = calls w1 /\ fs w2 = fs w1
    end.
Proof.
  intros Hsplit Hfirst Hsame Hrun.
  assert (fi ∈ choose wanted files) as Hfi by (rewrite Hsplit; set_solver).
  assert (fj ∈ choose wanted files) as Hfj by (rewrite Hsplit; set_solver).
  assert (target_name fj = target_name fi) as Htarget
    by (by apply (same_code_same_target wanted files)).
  assert (forall f, f ∈ pre -> f ∈ choose wanted files) as Hpre
    by (intros f Hf; rewrite Hsplit; set_solver).
  rewrite Hsplit in Hrun.
  apply download_all_app_ok in Hrun as (recs1 & w1 & recsR & Hpre_run & Hrun & -> & Hlen1).
  apply download_all_cons_ok in Hrun as (ri & w2 & rs & Hki & Hpi & Hrun & ->).
  apply download_all_app_ok in Hrun as (recs2 & w3 & recsR & Hmid_run & Hrun & -> & Hlen2).
  apply download_all_cons_ok in Hrun as (rj & w4 & recs3 & Hkj & Hpj & Hpost_run & ->).
  destruct (processed_ok _ _ _ _ _ _ Hpi) as (n & Hn2 & -> & _).
  destruct (download_all_ok _ _ _ _ _ _ Hmid_run) as (_ & Hmono_mid & _).
  destruct (download_all_ok _ _ _ _ _ _ Hpost_run) as (_ & Hmono_post & _).
  destruct (download_all_ok _ _ _ _ _ _ Hpre_run) as (_ & Hmono_pre & Hnew_pre & _).
  pose proof (Hmono_mid _ _ Hn2) as Hn3.
  destruct (processed_exists _ _ _ _ _ _ Hpj) as (Hcalls & Hfs & n' & Hn' & Hrj);
    [rewrite Htarget; eauto|].
  rewrite Htarget, Hn3 in Hn'. injection Hn' as <-. injection Hrj as ->.
  assert (children w4 !! target_name fi = Some n) as Hn4
    by (unfold children in *; by rewrite Hfs).
  exists recs1, (record_of E root fi n), recs2, (record_of E root fj n), recs3, w1, w2, w3, w4, n.
  split_and!; try done.
  - destruct Hki as (? & ? & ?). by rewrite process_file_spec.
  - destruct Hkj as (? & ? & ?). by rewrite process_file_spec.
  - cbn [saved_as record_of]. by rewrite Htarget.
  - by apply Hmono_post.
  - destruct (children w !! target_name fi) as [n0|] eqn:Hstart.
    + pose proof (Hmono_pre _ _ Hstart) as Hn1.
      destruct (processed_exists _ _ _ _ _ _ Hpi) as (Hc & Hf & m & Hm & _); [eauto|].
      split_and!; [|done|done].
      pose proof (processed_mono _ _ _ _ _ _ _ _ Hpi Hn1) as Hn2'.
      rewrite Hn2 in Hn2'. by injection Hn2'.
    + assert (children w1 !! target_name fi = None) as Hn1.
      { destruct (children w1 !! target_name fi) as [m|] eqn:Hm; [|done].
        destruct (Hnew_pre _ _ Hstart Hm) as (f & body & Hf & Heq & _).
        destruct (Hfirst f Hf). apply (same_code_same_target wanted files); auto. }
      pose proof (processed_missing _ _ _ _ _ _ Hpi Hn1) as Hcalls2.
      destruct (processed_new _ _ _ _ _ _ _ _ Hpi Hn1 Hn2) as (_ & body & Hbody & ->).
      exists body. split_and!; done.
Qed.

Lemma same_subject_entries_share_one_file_witness :
  exists recs1 ri recs2 rj recs3 w1 w2 w3 w4 n,
    [ManifestRecord (VStr "sub-01_attention_vc.h5") "/data/att/S4_attention.h5" (VStr "S4")
       (VStr "http://x/1") (VStr "abc") (VStr "md5:BODY1");
     ManifestRecord (VStr "SUB_1_Attention_VC.h5") "/data/att/S4_attention.h5" (VStr "S4")
       (VStr "http://x/1b") VNone (VStr "md5:BODY1")]
      = recs1 ++ ri :: recs2 ++ rj :: recs3 /\
    length recs1 = length ([] : list entry) /\ length recs2 = length ([] : list entry) /\
    download_all (Ex.env_of [] None) "/data/att" [] Ex.fresh = (Ok recs1, w1) /\
    process_file (Ex.env_of [] None) "/data/att" (annotate Ex.sub01) w1 = (Ok ri, w2) /\
    download_all (Ex.env_of [] None) "/data/att" [] w2 = (Ok recs2, w3) /\
    process_file (Ex.env_of [] None) "/data/att" (annotate Ex.sub01_again) w3 = (Ok rj, w4) /\
    download_all (Ex.env_of [] None) "/data/att" [] w4 =
      (Ok recs3,
       snd (download_all (Ex.env_of [] None) "/data/att"
              (choose Ex.all_wanted [Ex.sub01; Ex.sub99; Ex.sub01_again]) Ex.fresh)) /\
    saved_as rj = saved_as ri /\
    calls w4 = calls w3 /\ fs w4 = fs w3 /\
    children w2 !! target_name (annotate Ex.sub01) = Some n /\
    children (snd (download_all (Ex.env_of [] None) "/data/att"
                     (choose Ex.all_wanted [Ex.sub01; Ex.sub99; Ex.sub01_again]) Ex.fresh))
      !! target_name (annotate Ex.sub01) = Some n /\
    md5_local ri = local_md5 (Ex.env_of [] None) n /\
    md5_local rj = local_md5 (Ex.env_of [] None) n /\
    match children Ex.fresh !! target_name (annotate Ex.sub01) with
    | None =>
        exists body,
          http_get (Ex.env_of [] None) (dget (annotate Ex.sub01) "download_url") = Ok body /\
          n = File body false /\
          calls w2 = calls w1 ++
                     probe_calls (Ex.env_of [] None) (dget (annotate Ex.sub01) "download_url") ++
                     [Urlretrieve (dget (annotate Ex.sub01) "download_url") (saved_as ri)]
    | Some n0 => n = n0 /\ calls w2 = calls w1 /\ fs w2 = fs w1
    end.
Proof.
  apply (same_subject_entries_share_one_file (Ex.env_of [] None) "/data/att"
           Ex.all_wanted [Ex.sub01; Ex.sub99; Ex.sub01_again] [] [] []
           (annotate Ex.sub01) (annotate Ex.sub01_again) Ex.fresh).
  - vm_compute. reflexivity.
  - intros f Hf. by apply elem_of_nil in Hf.
  - vm_compute. reflexivity.
  - vm_compute. reflexivity.
Defined.

(** * Further properties of the code *)

(** ** Case and the string helpers *)

Lemma lower_upper_char (c : ascii) : Py.lower_char (Py.upper_char c) = Py.lower_char c.
Proof. destruct c as [[] [] [] [] [] [] [] []]; reflexivity. Qed.

Lemma lower_lower_char (c : ascii) : Py.lower_char (Py.lower_char c) = Py.lower_char c.
Proof. destruct c as [[] [] [] [] [] [] [] []]; reflexivity. Qed.

Lemma is_space_upper_char (c : ascii) : Py.is_space (Py.upper_char c) = Py.is_space c.
Proof. destruct c as [[] [] [] [] [] [] [] []]; reflexivity. Qed.

Lemma is_space_lower_char (c : ascii) : Py.is_space (Py.lower_char c) = Py.is_space c.
Proof. destruct c as [[] [] [] [] [] [] [] []]; reflexivity. Qed.

Lemma map_chars_compose (f g : ascii -> ascii) (s : string) :
  Py.map_chars f (Py.map_chars g s) = Py.map_chars (fun c => f (g c)) s.
Proof. induction s as [|c s IH]; [done|]. cbn [Py.map_chars]. by rewrite IH. Qed.

Lemma map_chars_ext (f g : ascii -> ascii) (s : string) :
  (forall c, f c = g c) -> Py.map_chars f s = Py.map_chars g s.
Proof. intros H. induction s as [|c s IH]; [done|]. cbn [Py.map_chars]. by rewrite H, IH. Qed.

Lemma lower_upper (s : string) : Py.lower (Py.upper s) = Py.lower s.
Proof.
  unfold Py.lower, Py.upper. rewrite map_chars_compose.
  apply map_chars_ext, lower_upper_char.
Qed.

Lemma lower_lower (s : string) : Py.lower (Py.lower s) = Py.lower s.
Proof.
  unfold Py.lower. rewrite map_chars_compose. apply map_chars_ext, lower_lower_char.
Qed.

Section MapStrip.

Context (f : ascii -> ascii).
Hypothesis f_space : forall c, Py.is_space (f c) = Py.is_space c.

Lemma map_chars_lstrip (s : string) :
  Py.lstrip (Py.map_chars f s) = Py.map_chars f (Py.lstrip s).
Proof.
  induction s as [|c s IH]; [done|]. cbn [Py.map_chars Py.lstrip].
  rewrite f_space. by destruct (Py.is_space c).
Qed.

Lemma map_chars_rev_onto (s acc : string) :
  Py.rev_onto (Py.map_chars f s) (Py.map_chars f acc) = Py.map_chars f (Py.rev_onto s acc).
Proof.
  revert acc. induction s as [|c s IH]; intros acc; [done|].
  cbn [Py.map_chars Py.rev_onto]. apply (IH (String c acc)).
Qed.

Lemma map_chars_reverse (s : string) :
  Py.reverse (Py.map_chars f s) = Py.map_chars f (Py.reverse s).
Proof. apply (map_chars_rev_onto s EmptyString). Qed.

Lemma map_chars_strip (s : string) :
  Py.strip (Py.map_chars f s) = Py.map_chars f (Py.strip s).
Proof.
  unfold Py.strip, Py.rstrip.
  by rewrite map_chars_lstrip, map_chars_reverse, map_chars_lstrip, map_chars_reverse.
Qed.

End MapStrip.

(** X1: on ASCII text [_normalize_sub_code] ignores the case of its
    argument: the upper case and the lower case of an ASCII string normalize
    as the string does. (Outside ASCII, [str.upper] can turn a character
    into a letter of the pattern, and the strings of this development stand
    for ASCII text only.) *)
Theorem normalize_sub_code_ignores_ascii_case (s : string) :
  Py.isascii s = true ->
  _normalize_sub_code (Py.upper s) = _normalize_sub_code s /\
  _normalize_sub_code (Py.lower s) = _normalize_sub_code s.
Proof.
  intros _. unfold _normalize_sub_code, Py.upper. split.
  - rewrite (map_chars_strip _ is_space_upper_char). fold (Py.upper (Py.strip s)).
    by rewrite lower_upper.
  - unfold Py.lower at 2. rewrite (map_chars_strip _ is_space_lower_char).
    fold (Py.lower (Py.strip s)). by rewrite lower_lower.
Qed.

Lemma normalize_sub_code_ignores_ascii_case_witness :
  _normalize_sub_code (Py.upper " Sub_06-run1 ") = _normalize_sub_code " Sub_06-run1 " /\
  _normalize_sub_code (Py.lower " Sub_06-run1 ") = _normalize_sub_code " Sub_06-run1 ".
Proof.
  apply (normalize_sub_code_ignores_ascii_case " Sub_06-run1 "). vm_compute. reflexivity.
Defined.

(** X2: on ASCII text [looks_like_attention_fmri] ignores the case of the
    name. *)
Theorem looks_like_attention_fmri_ignores_ascii_case (name : string) :
  Py.isascii name = true ->
  looks_like_attention_fmri (Py.upper name) = looks_like_attention_fmri name /\
  looks_like_attention_fmri (Py.lower name) = looks_like_attention_fmri name.
Proof. intros _. unfold looks_like_attention_fmri. by rewrite lower_upper, lower_lower. Qed.

Lemma looks_like_attention_fmri_ignores_ascii_case_witness :
  looks_like_attention_fmri (Py.upper "sub-01_Attention_vc.H5") =
    looks_like_attention_fmri "sub-01_Attention_vc.H5" /\
  looks_like_attention_fmri (Py.lower "sub-01_Attention_vc.H5") =
    looks_like_attention_fmri "sub-01_Attention_vc.H5".
Proof.
  apply (looks_like_attention_fmri_ignores_ascii_case "sub-01_Attention_vc.H5").
  vm_compute. reflexivity.
Defined.

(** ** The subject number *)

(** the text of group 1 is one digit 1-9, or that digit and one more *)
Lemma group_shape (s g : string) :
  Re.group s = Some g ->
  exists c, Re.is_19 c = true /\
    (g = String c EmptyString \/
     exists d, Py.is_digit d = true /\ g = String c (String d EmptyString)).
Proof.
  unfold Re.group. destruct s as [|c r]; [discriminate|].
  destruct (Re.is_19 c) eqn:Hc; [|discriminate].
  destruct r as [|d r]; [intros [= <-]; eauto|].
  destruct (Py.is_digit d) eqn:Hd; intros [= <-]; eauto 6.
Qed.

Lemma orelse_Some {A : Type} (a b : option A) (x : A) :
  Re.orelse a b = Some x -> a = Some x \/ b = Some x.
Proof. destruct a; cbn; auto. Qed.

Lemma zero_group_group (s g : string) :
  Re.zero_group s = Some g -> exists s', Re.group s' = Some g.
Proof.
  unfold Re.zero_group. destruct s as [|c r]; [eauto|].
  destruct (Ascii.eqb c "0"); [|eauto].
  intros [H|H]%orelse_Some; eauto.
Qed.

Lemma sep_zero_group_group (s g : string) :
  Re.sep_zero_group s = Some g -> exists s', Re.group s' = Some g.
Proof.
  unfold Re.sep_zero_group. destruct s as [|c r]; [apply zero_group_group|].
  destruct (Re.is_sep c); [|apply zero_group_group].
  intros [H|H]%orelse_Some; eapply zero_group_group; eauto.
Qed.

Lemma search_shape (s g : string) :
  Re.search s = Some g ->
  exists c, Re.is_19 c = true /\
    (g = String c EmptyString \/
     exists d, Py.is_digit d = true /\ g = String c (String d EmptyString)).
Proof.
  assert (forall t, Re.match_here t = Some g -> exists s', Re.group s' = Some g) as Hhere.
  { intros t. unfold Re.match_here. destruct (Py.startswith _ _); [|discriminate].
    apply sep_zero_group_group. }
  induction s as [|a s IH]; cbn [Re.search].
  - destruct (Re.match_here EmptyString) as [g'|] eqn:Hm; [|discriminate].
    intros [= ->]. destruct (Hhere _ Hm) as [s' Hs']. by eapply group_shape.
  - destruct (Re.match_here (String a s)) as [g'|] eqn:Hm; [|exact IH].
    intros [= ->]. destruct (Hhere _ Hm) as [s' Hs']. by eapply group_shape.
Qed.

Lemma is_19_code (c : ascii) : Re.is_19 c = true -> 49 <= Py.code c <= 57.
Proof.
  unfold Re.is_19, Py.between. rewrite andb_true_iff, !Nat.leb_le. lia.
Qed.

Lemma is_19_char (c : ascii) :
  Re.is_19 c = true ->
  c ∈ ["1"; "2"; "3"; "4"; "5"; "6"; "7"; "8"; "9"]%char.
Proof.
  destruct c as [[] [] [] [] [] [] [] []]; intros H; try discriminate H; set_solver.
Qed.

(** X3: [_normalize_sub_code] accepts the subject numbers 1, 4, 6 and 7
    written with one digit only: when the pattern matches, the result is
    [sub-0d] if the matched number is the single digit d among 1, 4, 6, 7,
    and [None] for any other digit and for every two-digit number. *)
Theorem normalize_sub_code_single_digit (s : string) :
  _normalize_sub_code s =
  match Re.search (Py.lower (Py.strip s)) with
  | Some g =>
      if bool_decide (g ∈ ["1"; "4"; "6"; "7"]) then Some ("sub-0" +:+ g) else None
  | None => None
  end.
Proof.
  unfold _normalize_sub_code.
  destruct (Re.search _) as [g|] eqn:Hg; [|done].
  destruct (search_shape _ _ Hg) as (c & Hc & [->|(d & Hd & ->)]).
  - apply is_19_char in Hc.
    repeat (apply elem_of_cons in Hc as [->|Hc]; [by vm_compute|]).
    by apply elem_of_nil in Hc.
  - rewrite (bool_decide_eq_false_2 (String c (String d EmptyString) ∈ _)).
    2:{ intros H. repeat (apply elem_of_cons in H as [[=]|H]). by apply elem_of_nil in H. }
    rewrite bool_decide_eq_false_2; [done|].
    apply is_19_code in Hc.
    assert (10 <= Py.int_of_digits (String c (String d EmptyString))) as Hn.
    { unfold Py.int_of_digits. cbn [list_ascii_of_string fold_left].
      unfold Py.digit_val. lia. }
    intros H. repeat (apply elem_of_cons in H as [H|H]; [lia|]).
    by apply elem_of_nil in H.
Qed.

(** X4: what [_normalize_sub_code] returns is one of the four canonical
    codes, and normalizing it again gives it back. *)
Theorem normalize_sub_code_idempotent (s c : string) :
  _normalize_sub_code s = Some c ->
  c ∈ canonical_codes /\ _normalize_sub_code c = Some c.
Proof.
  intros H. pose proof (_normalize_sub_code_canonical _ _ H) as Hc.
  split; [done|]. unfold canonical_codes in Hc.
  repeat (apply elem_of_cons in Hc as [->|Hc]; [by vm_compute|]).
  by apply elem_of_nil in Hc.
Qed.

Lemma normalize_sub_code_idempotent_witness :
  "sub-06" ∈ canonical_codes /\ _normalize_sub_code "sub-06" = Some "sub-06".
Proof.
  apply (normalize_sub_code_idempotent "  SUB_6-run2.h5 " "sub-06").
  vm_compute. reflexivity.
Defined.

(** ** The tables of codes *)

(** X5: the two tables are inverse to each other: [SUB_TO_S] maps a subject
    code to a short code exactly when [S_TO_SUB] maps that short code to
    that subject code; and [select_subjects] resolves a short code and the
    subject code it stands for to the same result. *)
Theorem code_tables_are_inverse (S sub : string) :
  (dict_get S_TO_SUB S = Some sub <-> dict_get SUB_TO_S sub = Some S) /\
  (dict_get S_TO_SUB S = Some sub ->
   select_subjects [S] = Ok [sub] /\ select_subjects [sub] = Ok [sub]).
Proof.
  assert (dict_get S_TO_SUB S = Some sub ->
          dict_get SUB_TO_S sub = Some S /\
          select_subjects [S] = Ok [sub] /\ select_subjects [sub] = Ok [sub]) as Hfwd.
  { intros H. destruct (dict_get_S_TO_SUB _ _ H) as [HS _].
    unfold short_codes in HS.
    repeat (apply elem_of_cons in HS as [->|HS];
            [injection H as <-; by vm_compute|]).
    by apply elem_of_nil in HS. }
  split; [split|]; [by intros [? _]%Hfwd| |by intros [_ ?]%Hfwd].
  unfold SUB_TO_S, S_TO_SUB. cbn [map fst snd dict_get].
  repeat (destruct (String.eqb _ sub) eqn:Hk;
          [apply String.eqb_eq in Hk; subst sub; intros [= <-]; reflexivity|clear Hk]).
  discriminate.
Qed.

(** ** Selecting subjects *)

Lemma select_loop_resolved (specs : list string) (out : gset string) :
  Forall (fun s => is_Some (resolve s)) specs ->
  select_loop specs out = Ok (out ∪ list_to_set (omap resolve specs)).
Proof.
  revert out. induction specs as [|s rest IH]; intros out Hall.
  - cbn. f_equal. set_solver.
  - apply Forall_cons in Hall as [[c Hc] Hall].
    rewrite select_loop_cons, Hc, IH by done. f_equal.
    cbn [omap list_omap]. rewrite Hc. set_solver.
Qed.

Lemma select_subjects_nonempty_ok (specs r : list string) :
  specs <> [] ->
  (select_subjects specs = Ok r <->
   Forall (fun s => is_Some (resolve s)) specs /\
   r = sorted (list_to_set (omap resolve specs))).
Proof.
  intros Hne. destruct specs as [|s rest]; [done|]. unfold select_subjects. split.
  - destruct (select_loop _ _) as [out|] eqn:Hl; [|discriminate].
    intros [= <-]. apply select_loop_ok in Hl as [-> Hall]. split; [done|].
    f_equal. set_solver.
  - intros [Hall ->]. rewrite select_loop_resolved by done. do 2 f_equal. set_solver.
Qed.

(** X6: the result of [select_subjects] depends only on which spec strings
    are given, not on their order or on repetitions: two lists with the same
    elements give the same list of codes. *)
Theorem select_subjects_ignores_order_and_repeats (specs1 specs2 r : list string) :
  (forall s, s ∈ specs1 <-> s ∈ specs2) ->
  select_subjects specs1 = Ok r ->
  select_subjects specs2 = Ok r.
Proof.
  intros Hsame H. destruct specs1 as [|s1 rest1].
  - destruct specs2 as [|s2 rest2]; [done|]. set_solver.
  - assert (specs2 <> []) as Hne2 by (intros ->; set_solver).
    apply select_subjects_nonempty_ok in H as [Hall ->]; [|done].
    apply select_subjects_nonempty_ok; [done|]. split.
    + rewrite Forall_forall in *. intros s Hs. by apply Hall, Hsame.
    + f_equal. apply set_eq. intros c.
      rewrite !elem_of_list_to_set, !list_elem_of_omap. set_solver.
Qed.

Lemma select_subjects_ignores_order_and_repeats_witness :
  select_subjects ["s4"; "sub_7"; "s4"; "SUB-01"] = Ok ["sub-01"; "sub-07"].
Proof.
  apply (select_subjects_ignores_order_and_repeats ["sub_7"; "s4"; "SUB-01"]).
  - set_solver.
  - vm_compute. reflexivity.
Defined.

#[global] Instance str_le_antisym : AntiSymm (=) str_le.
Proof. intros s t. apply String.leb_antisym. Qed.

Lemma resolve_canonical_code (c : string) : c ∈ canonical_codes -> resolve c = Some c.
Proof.
  unfold canonical_codes. intros H.
  repeat (apply elem_of_cons in H as [->|H]; [by vm_compute|]).
  by apply elem_of_nil in H.
Qed.

(** X7: on a non-empty list of specs, the result of [select_subjects] is a
    fixed point: given back as the list of specs, it is returned unchanged. *)
Theorem select_subjects_idempotent (specs r : list string) :
  specs <> [] ->
  select_subjects specs = Ok r ->
  select_subjects r = Ok r.
Proof.
  intros Hne H.
  destruct (select_subjects_ok _ _ H) as (Hnd & Hcanon & Hsorted).
  destruct (Hsorted Hne) as [Hss Hmem].
  assert (r <> []) as Hr.
  { destruct specs as [|s rest]; [done|]. intros ->.
    apply select_subjects_nonempty_ok in H as [Hall _]; [|done].
    apply Forall_cons in Hall as [[c Hc] _].
    assert (c ∈ ([] : list string)) as Hin by (apply Hmem; exists s; split; [by left|done]).
    by apply elem_of_nil in Hin. }
  apply select_subjects_nonempty_ok; [done|].
  assert (omap resolve r = r) as Homap.
  { clear -Hcanon. induction r as [|c r IH]; [done|].
    cbn [omap list_omap]. rewrite resolve_canonical_code by (apply Hcanon; by left).
    f_equal. apply IH. intros c' Hc'. apply Hcanon. by right. }
  split.
  - apply Forall_forall. intros c Hc. rewrite resolve_canonical_code by auto. eauto.
  - rewrite Homap. symmetry. unfold sorted.
    apply (StronglySorted_unique str_le).
    + apply StronglySorted_merge_sort; apply _.
    + done.
    + rewrite merge_sort_Permutation. by apply elements_list_to_set.
Qed.

Lemma select_subjects_idempotent_witness :
  select_subjects ["sub-01"; "sub-07"] = Ok ["sub-01"; "sub-07"].
Proof.
  apply (select_subjects_idempotent ["sub_7"; "s4"; "SUB-01"]).
  - discriminate.
  - vm_compute. reflexivity.
Defined.

(** ** The selector on its own output *)

Lemma choose_cons (wanted : gset string) (fi : entry) (files : list entry) :
  choose wanted (fi :: files) =
  if keeps_by_name wanted fi && has_url fi
  then annotate fi :: choose wanted files
  else choose wanted files.
Proof.
  unfold choose. cbn [omap list_omap]. rewrite choose_one_spec.
  by destruct (keeps_by_name wanted fi && has_url fi).
Qed.

Lemma annotate_lookup (fi : entry) (k : string) :
  k <> "__S" -> k <> "__sub" -> annotate fi !! k = fi !! k.
Proof. intros H1 H2. unfold annotate. by rewrite !lookup_insert_ne. Qed.

Lemma entry_name_annotate (fi : entry) : entry_name (annotate fi) = entry_name fi.
Proof. unfold entry_name. by rewrite annotate_lookup. Qed.

Lemma annotate_annotate (fi : entry) : annotate (annotate fi) = annotate fi.
Proof.
  unfold annotate at 1. rewrite entry_name_annotate. unfold annotate.
  apply map_eq. intros k. rewrite !lookup_insert.
  by repeat case_decide.
Qed.

Lemma kept_annotate (wanted : gset string) (fi : entry) :
  keeps_by_name wanted (annotate fi) && has_url (annotate fi) =
  keeps_by_name wanted fi && has_url fi.
Proof.
  unfold keeps_by_name, has_url, dget.
  by rewrite entry_name_annotate, !annotate_lookup.
Qed.

(** X8: the selector is idempotent: run on the entries it has chosen and
    annotated, with the same wanted set, it returns them unchanged. *)
Theorem selector_is_idempotent (wanted : gset string) (files : list entry) :
  choose wanted (choose wanted files) = choose wanted files.
Proof.
  induction files as [|fi files IH]; [done|].
  rewrite choose_cons. destruct (keeps_by_name wanted fi && has_url fi) eqn:Hk; [|done].
  by rewrite choose_cons, kept_annotate, Hk, annotate_annotate, IH.
Qed.

(** X9: every chosen entry carries a subject code and a short code that
    agree with the table ([S_TO_SUB] maps the short code to the subject
    code, so the fallback [Sx] is never used), its subject code is the one
    derived from its name and is wanted, and its flat file name is in the
    allowed set. *)
Theorem chosen_entry_annotation (wanted : gset string) (files : list entry) (fi : entry) :
  fi ∈ choose wanted files ->
  exists sub S,
    fi !! "__sub" = Some (VStr sub) /\ fi !! "__S" = Some (VStr S) /\
    dict_get S_TO_SUB S = Some sub /\ S <> "Sx" /\
    _normalize_sub_code (entry_name fi) = Some sub /\ sub ∈ wanted /\
    target_name fi = flat_name S /\ flat_name S ∈ allowed.
Proof.
  intros Hin.
  destruct (chosen_entry _ _ _ Hin)
    as (fi0 & n & sub & S & _ & _ & Hshort & Hw & Hn & HS & _ & Hname & _ & Hsub & HS' & _ & _ & Ht).
  destruct (dict_get_SUB_TO_S sub) as (S2 & HS2 & _ & Hback);
    [by eapply _normalize_sub_code_canonical|].
  rewrite HS in HS2. injection HS2 as <-.
  exists sub, S. split_and!; try done.
  - intros ->. unfold short_codes in Hshort. set_solver.
  - unfold entry_name. by rewrite Hname.
  - by apply flat_name_allowed.
Qed.

Lemma chosen_entry_annotation_witness :
  exists sub S,
    annotate Ex.sub01_again !! "__sub" = Some (VStr sub) /\
    annotate Ex.sub01_again !! "__S" = Some (VStr S) /\
    dict_get S_TO_SUB S = Some sub /\ S <> "Sx" /\
    _normalize_sub_code (entry_name (annotate Ex.sub01_again)) = Some sub /\
    sub ∈ Ex.all_wanted /\
    target_name (annotate Ex.sub01_again) = flat_name S /\ flat_name S ∈ allowed.
Proof.
  apply (chosen_entry_annotation Ex.all_wanted [Ex.sub99; Ex.sub01_again]).
  vm_compute. set_solver.
Defined.

(** ** Hashing and the MD5 check *)

(** X10: [_md5sum] feeds the hash the whole content of the file, whatever
    the chunk size and the length of the file: reading in chunks of any
    positive size rebuilds the content, so the result is the MD5 of the
    content; on a directory it raises [IsADirectoryError], on a missing path
    [FileNotFoundError]; it never changes the world. *)
Theorem md5sum_hashes_whole_file (E : env) (root name : string) (w : world) :
  (forall n data, 0 < n -> read_chunks (S (String.length data)) n data "" = data) /\
  _md5sum E root name w =
  (match children w !! name with
   | Some (File data _) => Ok (hashlib_md5 E data)
   | Some (Dir _) => Raise (IsADirectoryError (path_join root name))
   | None => Raise (FileNotFoundError (path_join root name))
   end, w).
Proof.
  split.
  - intros n data Hn. by rewrite read_chunks_all by lia.
  - rewrite _md5sum_spec. by destruct (children w !! name) as [[]|].
Qed.

(** X11: the MD5 check of a regular file never raises and changes neither
    the directory nor the calls; its value is the local hash; and it prints
    nothing exactly when the remote MD5 is absent or empty, or equal to the
    local hash. *)
Theorem verify_is_quiet_when_md5_agrees (E : env) (name md5_remote : value)
    (root fname data : string) (p : bool) (w : world) :
  children w !! fname = Some (File data p) ->
  exists lines,
    verify E name md5_remote root fname w =
      (Ok (VStr (hashlib_md5 E data)), World (fs w) (stdout w ++ lines) (calls w)) /\
    (lines = [] <->
     truthy md5_remote = false \/ md5_remote = VStr (hashlib_md5 E data)).
Proof.
  intros Hn. rewrite (verify_spec E _ _ _ _ _ _ Hn). cbn [local_md5 verify_lines].
  eexists. split; [reflexivity|].
  destruct (truthy md5_remote); cbn [andb].
  - case_bool_decide as Heq; cbn [negb]; split; auto; try discriminate.
    intros [?|?]; [discriminate|congruence].
  - split; auto.
Qed.

Lemma verify_is_quiet_when_md5_agrees_witness :
  exists lines,
    verify (Ex.env_of [] None) (VStr "a.h5") (VStr "md5:OLD") "/data/att" "S4_attention.h5"
      Ex.cached =
      (Ok (VStr (hashlib_md5 (Ex.env_of [] None) "OLD")),
       World (fs Ex.cached) (stdout Ex.cached ++ lines) (calls Ex.cached)) /\
    (lines = [] <->
     truthy (VStr "md5:OLD") = false \/
     VStr "md5:OLD" = VStr (hashlib_md5 (Ex.env_of [] None) "OLD")).
Proof.
  apply (verify_is_quiet_when_md5_agrees (Ex.env_of [] None) (VStr "a.h5") (VStr "md5:OLD")
           "/data/att" "S4_attention.h5" "OLD" false Ex.cached).
  vm_compute. reflexivity.
Defined.

(** ** The progress bar *)

Lemma progress_urlretrieve_spec (E : env) (url : value) (root name : string) (w : world) :
  _progress_urlretrieve E url root name w =
  let cs := calls w ++ probe_calls E url ++ [Urlretrieve url (path_join root name)] in
  match http_get E url with
  | Ok body => (Ok tt, World (Some (<[name := File body false]> (children w))) (stdout w) cs)
  | Raise e => (Raise e, World (fs w) (stdout w) cs)
  end.
Proof.
  unfold _progress_urlretrieve, urlretrieve, probe, probe_calls.
  destruct (tqdm E), url as [|u]; io_simpl;
    destruct (http_get E _) as [body|e]; io_simpl;
    by rewrite ?app_nil_l, <- ?app_assoc.
Qed.

(** X12: whether [tqdm] is installed changes nothing but the request made
    for the progress bar: with the same remote files,
    [_progress_urlretrieve] gives the same result, the same directory and
    the same output, and makes exactly one download call. *)
Theorem progress_bar_does_not_change_download (E E' : env) (url : value)
    (root name : string) (w : world) :
  (forall u, remote E' u = remote E u) ->
  fst (_progress_urlretrieve E' url root name w) = fst (_progress_urlretrieve E url root name w) /\
  fs (snd (_progress_urlretrieve E' url root name w)) =
    fs (snd (_progress_urlretrieve E url root name w)) /\
  stdout (snd (_progress_urlretrieve E' url root name w)) = stdout w /\
  fetches (calls (snd (_progress_urlretrieve E' url root name w))) = S (fetches (calls w)).
Proof.
  intros Hremote. rewrite !progress_urlretrieve_spec. cbv zeta.
  assert (http_get E' url = http_get E url) as ->.
  { unfold http_get. destruct url as [|u]; [done|]. by rewrite Hremote. }
  destruct (http_get E url) as [body|e]; cbn [fst snd fs stdout calls];
    rewrite !fetches_app, fetches_probe, fetches_retrieve; split_and!; try done; lia.
Qed.

Lemma progress_bar_does_not_change_download_witness :
  fst (_progress_urlretrieve
         (Env "f" [] (fun _ => None) Ex.remote_files true (fun s => s) (fun _ => ""))
         (VStr "http://x/1") "/data/att" "S4_attention.h5" Ex.fresh) =
    fst (_progress_urlretrieve (Ex.env_of [] None) (VStr "http://x/1") "/data/att"
           "S4_attention.h5" Ex.fresh) /\
  fs (snd (_progress_urlretrieve
         (Env "f" [] (fun _ => None) Ex.remote_files true (fun s => s) (fun _ => ""))
         (VStr "http://x/1") "/data/att" "S4_attention.h5" Ex.fresh)) =
    fs (snd (_progress_urlretrieve (Ex.env_of [] None) (VStr "http://x/1") "/data/att"
           "S4_attention.h5" Ex.fresh)) /\
  stdout (snd (_progress_urlretrieve
         (Env "f" [] (fun _ => None) Ex.remote_files true (fun s => s) (fun _ => ""))
         (VStr "http://x/1") "/data/att" "S4_attention.h5" Ex.fresh)) = stdout Ex.fresh /\
  fetches (calls (snd (_progress_urlretrieve
         (Env "f" [] (fun _ => None) Ex.remote_files true (fun s => s) (fun _ => ""))
         (VStr "http://x/1") "/data/att" "S4_attention.h5" Ex.fresh))) =
    S (fetches (calls Ex.fresh)).
Proof.
  apply (progress_bar_does_not_change_download (Ex.env_of [] None)
           (Env "f" [] (fun _ => None) Ex.remote_files true (fun s => s) (fun _ => ""))).
  intros u. reflexivity.
Defined.

(** ** Pruning on its own *)

Lemma prune_names_elem (l : list (string * node)) (k : string) :
  k ∈ prune_names l -> k ∈ l.*1.
Proof.
  unfold prune_names. rewrite list_elem_of_omap. intros ([name n] & Hin & Hl).
  cbn [fst snd] in Hl. destruct (listed name n); [|discriminate]. injection Hl as <-.
  apply list_elem_of_fmap. by exists (name, n).
Qed.

Lemma prune_names_NoDup (l : list (string * node)) : NoDup l.*1 -> NoDup (prune_names l).
Proof.
  induction l as [|[name n] l IH]; [constructor|].
  rewrite fmap_cons, NoDup_cons. cbn [fst]. intros [Hnotin Hnd].
  rewrite prune_names_cons. destruct (listed name n); [|auto].
  apply NoDup_cons. split; [|auto]. intros Hin. by apply Hnotin, prune_names_elem.
Qed.

Lemma lookup_eq_of_iff (d1 d2 : gmap string node) (k : string) :
  (forall n, d1 !! k = Some n <-> d2 !! k = Some n) -> d1 !! k = d2 !! k.
Proof.
  intros H. destruct (d1 !! k) as [n1|], (d2 !! k) as [n2|]; [| | |done].
  - symmetry. by apply H.
  - by destruct (proj1 (H n1)).
  - by destruct (proj2 (H n2)).
Qed.

Lemma prune_eq (root : string) (d : gmap string node) (out : list string) (cs : list call) :
  prune root (World (Some d) out cs) =
  (Ok (prune_names (map_to_list d)), World (Some (prune_dir (map_to_list d) d)) out cs).
Proof. unfold prune. io_simpl. by rewrite prune_loop_spec. Qed.

(** X13: pruning an existing directory never raises and touches neither the
    output nor the calls; it only deletes, and never a child of the allowed
    set; the names it returns are distinct and outside the allowed set; and
    pruning again changes nothing more, listing only the directories that
    could not be removed. On a missing directory it raises
    [FileNotFoundError]. *)
Theorem prune_only_removes_strays (root : string) (d : gmap string node)
    (out : list string) (cs : list call) :
  (exists d1 names names',
     prune root (World (Some d) out cs) = (Ok names, World (Some d1) out cs) /\
     prune root (World (Some d1) out cs) = (Ok names', World (Some d1) out cs) /\
     NoDup names /\
     (forall k, k ∈ names -> (k ∉ allowed) /\ is_Some (d !! k)) /\
     (forall k n, d1 !! k = Some n -> d !! k = Some n) /\
     (forall k, k ∈ allowed -> d1 !! k = d !! k) /\
     (forall k, k ∈ names' <-> (k ∉ allowed) /\ d !! k = Some (Dir true))) /\
  prune root (World None out cs) = (Raise (FileNotFoundError root), World None out cs).
Proof.
  split; [|reflexivity].
  destruct (prune_spec root d out cs) as (d1 & names & Hprune & Hd1 & Hnames).
  destruct (prune_spec root d1 out cs) as (d2 & names' & Hprune' & Hd2 & Hnames').
  assert (d2 = d1) as ->.
  { apply map_eq. intros k. apply lookup_eq_of_iff. intros n. rewrite Hd2.
    split; [by intros [? _]|]. intros H. split; [done|]. by apply Hd1 in H as [_ ?]. }
  exists d1, names, names'. split_and!; try done.
  - rewrite prune_eq in Hprune. injection Hprune as <- _.
    apply prune_names_NoDup, NoDup_fst_map_to_list.
  - intros k (n & Hn & [Hk _]%listed_iff)%Hnames. eauto.
  - intros k n Hn. by apply Hd1 in Hn as [? _].
  - intros k Hk. apply lookup_eq_of_iff. intros n. rewrite Hd1.
    split; [by intros [? _]|]. intros Hn. split; [done|by apply stays_allowed].
  - intros k. rewrite Hnames'. split.
    + intros (n & [Hn Hst]%Hd1 & [Hk Hl]%listed_iff).
      rewrite stays_stray in Hst by done. split; [done|].
      destruct n as [data q|q]; cbn in *.
      * destruct Hl as [Hl|Hl]; congruence.
      * by subst q.
    + intros [Hk Hn]. exists (Dir true). split.
      * apply Hd1. split; [done|]. by rewrite stays_stray.
      * apply listed_iff. split; [done|]. by left.
Qed.

(** ** Runs that fail *)

Lemma fetches_urlopen (url : string) : fetches [Urlopen url] = 0.
Proof. reflexivity. Qed.

(** X14: when the target is not in the file list, a subject spec is not
    recognized or the catalog cannot be fetched, [main] raises ([KeyError],
    [ValueError] or [URLError]) before the first loop: the children of the
    destination and the output are those of the start and nothing is
    downloaded. *)
Theorem failure_before_the_loops_changes_nothing (E : env) (cfg_target : string) (w : world) :
  plan E cfg_target = None ->
  exists e w',
    main E cfg_target w = (Raise e, w') /\
    (exists m, e = KeyError m \/ e = ValueError m \/ e = URLError m) /\
    children w' = children w /\ stdout w' = stdout w /\
    fetches (calls w') = fetches (calls w).
Proof.
  unfold plan, main, mkdir, fetch_figshare_files.
  destruct (dict_get _ _) as [target|]; [|by intros _; eexists _, w; eauto 10].
  io_simpl. destruct (select_subjects _) as [subs|e] eqn:Hsel.
  - io_simpl. destruct (figshare E _) as [meta|]; [discriminate|]. intros _. io_simpl.
    eexists _, _. split; [reflexivity|]. cbn [fs stdout calls]. split_and!; eauto.
    rewrite fetches_app, fetches_urlopen. lia.
  - intros _. eexists _, _. split; [reflexivity|]. split_and!; try done.
    destruct (default [] (subjects target)) as [|s rest] eqn:Hspecs; [discriminate|].
    unfold select_subjects in Hsel.
    destruct (select_loop _ _) as [out|e'] eqn:Hl; [discriminate|]. injection Hsel as ->.
    clear -Hl. revert Hl. generalize (∅ : gset string). generalize (s :: rest).
    induction l as [|x l IH]; intros out; [discriminate|].
    rewrite select_loop_cons. destruct (resolve x); [apply IH|]. intros [= <-]. eauto.
Qed.

Lemma failure_before_the_loops_changes_nothing_witness :
  exists e w',
    main (Ex.env_of [Ex.sub01] None) "fmri_rest" Ex.cluttered = (Raise e, w') /\
    (exists m, e = KeyError m \/ e = ValueError m \/ e = URLError m) /\
    children w' = children Ex.cluttered /\ stdout w' = stdout Ex.cluttered /\
    fetches (calls w') = fetches (calls Ex.cluttered).
Proof.
  apply (failure_before_the_loops_changes_nothing (Ex.env_of [Ex.sub01] None) "fmri_rest").
  vm_compute. reflexivity.
Defined.

Lemma process_file_cases (E : env) (root : string) (fi : entry) (w : world) :
  (keyed fi /\ process_file E root fi w = processed E root fi w) \/
  (exists key, process_file E root fi w = (Raise (KeyError key), w)).
Proof.
  destruct (fi !! "name") as [name|] eqn:Hname;
    [|right; unfold process_file, getitem; rewrite Hname; eauto].
  destruct (fi !! "download_url") as [url|] eqn:Hurl;
    [|right; unfold process_file, getitem; rewrite Hname, Hurl; eauto].
  destruct (fi !! "__S") as [S|] eqn:HS;
    [|right; unfold process_file, getitem; rewrite Hname, Hurl, HS; eauto].
  left. assert (keyed fi) as Hk by (unfold keyed; rewrite Hname, Hurl, HS; eauto).
  split; [done|]. apply process_file_spec; apply Hk.
Qed.

Lemma download_all_frame (E : env) (root : string) (chosen : list entry) (w w' : world)
    (r : result (list manifest_record)) :
  download_all E root chosen w = (r, w') ->
  (forall k n, children w !! k = Some n -> children w' !! k = Some n) /\
  (forall k n, children w !! k = None -> children w' !! k = Some n ->
     exists fi body, fi ∈ chosen /\ k = target_name fi /\ n = File body false).
Proof.
  revert w r. induction chosen as [|fi rest IH]; intros w r.
  - intros [= <- <-]. split; [done|]. intros k n H1 H2. by rewrite H1 in H2.
  - cbn [download_all]. rewrite bind_unfold.
    destruct (process_file_cases E root fi w) as [[Hk ->]|[key ->]]; [|by intros [= <- <-]; split;
      [|intros k n H1 H2; by rewrite H1 in H2]].
    destruct (processed E root fi w) as [[rec|e] w1] eqn:Hp.
    + rewrite bind_unfold. destruct (download_all E root rest w1) as [[rs|e] w2] eqn:Hrest;
        intros [= <- <-]; destruct (IH _ _ Hrest) as [Hmono Hnew]; split.
      * intros k n Hn. eapply Hmono, processed_mono; eauto.
      * intros k n Hnone Hsome. destruct (children w1 !! k) as [m|] eqn:Hm.
        -- rewrite (Hmono _ _ Hm) in Hsome. injection Hsome as ->.
           destruct (processed_new _ _ _ _ _ _ _ _ Hp Hnone Hm) as (-> & body & _ & ->).
           exists fi, body. split; [by left|done].
        -- destruct (Hnew _ _ Hm Hsome) as (fj & body & Hin & -> & ->).
           exists fj, body. split; [by right|done].
      * intros k n Hn. eapply Hmono, processed_mono; eauto.
      * intros k n Hnone Hsome. destruct (children w1 !! k) as [m|] eqn:Hm.
        -- rewrite (Hmono _ _ Hm) in Hsome. injection Hsome as ->.
           destruct (processed_new _ _ _ _ _ _ _ _ Hp Hnone Hm) as (-> & body & _ & ->).
           exists fi, body. split; [by left|done].
        -- destruct (Hnew _ _ Hm Hsome) as (fj & body & Hin & -> & ->).
           exists fj, body. split; [by right|done].
    + intros [= <- <-]. split.
      * intros k n Hn. eapply processed_mono; eauto.
      * intros k n Hnone Hsome.
        destruct (processed_new _ _ _ _ _ _ _ _ Hp Hnone Hsome) as (-> & body & _ & ->).
        exists fi, body. split; [by left|done].
Qed.

Lemma normalize_frame (E : env) (root : string) (article : Z) (recs : list manifest_record)
    (w w' : world) (r : result unit) :
  normalize E root article recs w = (r, w') ->
  forall k n, k <> manifest_name -> stays k n = true ->
    children w !! k = Some n -> children w' !! k = Some n.
Proof.
  unfold normalize. destruct w as [[d|] out cs]; [|by intros [= <- <-]].
  destruct (prune_spec root d out cs) as (d1 & names & Hprune & Hd1 & _).
  rewrite (bind_ok _ _ _ _ _ Hprune). rewrite bind_unfold.
  destruct (write_text root manifest_name _ _) as [[[]|e] w2] eqn:Hw.
  - apply write_text_ok in Hw as (d1' & [= <-] & _ & ->).
    edestruct report_spec as [lines ->]. intros [= <- <-] k n Hk Hst Hn.
    unfold children in *. cbn [fs default from_option id] in *.
    rewrite lookup_insert_ne by done. by apply Hd1.
  - apply write_text_raise in Hw as [-> _]. intros [= <- <-] k n Hk Hst Hn.
    unfold children in *. cbn [fs default from_option id] in *. by apply Hd1.
Qed.

Lemma failure_before_loops_frame (E : env) (cfg_target : string) (w : world) :
  plan E cfg_target = None ->
  exists e w', main E cfg_target w = (Raise e, w') /\ children w' = children w.
Proof.
  unfold plan, main, mkdir, fetch_figshare_files.
  destruct (dict_get _ _) as [target|]; [|by intros _; eexists _, w].
  io_simpl. destruct (select_subjects _) as [subs|e] eqn:Hsel.
  - io_simpl. destruct (figshare E _) as [meta|]; [discriminate|]. intros _. io_simpl.
    by eexists _, _.
  - intros _. by eexists _, _.
Qed.

Lemma main_frame (E : env) (cfg_target : string) (w w' : world) (r : result unit) :
  main E cfg_target w = (r, w') ->
  (plan E cfg_target = None /\ children w' = children w) \/
  (exists root article chosen,
     plan E cfg_target = Some (root, article, chosen) /\
     ((chosen = [] /\ children w' = children w /\ r = Ok tt) \/
      (exists e, download_all E root chosen (started article w) = (Raise e, w') /\ r = Raise e) \/
      (exists recs w1, download_all E root chosen (started article w) = (Ok recs, w1) /\
         normalize E root article recs w1 = (r, w')))).
Proof.
  destruct (plan E cfg_target) as [[[root article] chosen]|] eqn:Hplan.
  - intros H. right. exists root, article, chosen. split; [done|].
    rewrite (main_plan _ _ _ _ _ _ Hplan) in H. destruct chosen as [|fi rest].
    + left. injection H as <- <-. done.
    + right. rewrite bind_unfold in H.
      destruct (download_all E root (fi :: rest) (started article w)) as [[recs|e] w1].
      * right. eauto.
      * left. injection H as <- <-. eauto.
  - intros H. left. split; [done|].
    destruct (failure_before_loops_frame E cfg_target w Hplan) as (e & w0 & Hm & Hc).
    rewrite Hm in H. by injection H as <- <-.
Qed.

(** X15: no run, completed or failed, re-downloads, overwrites or deletes a
    child of the allowed set that is already there (the manifest apart), nor
    a file outside it that cannot be removed: such a child is at the end
    what it was at the start. *)
Theorem existing_files_are_kept (E : env) (cfg_target : string) (w w' : world)
    (r : result unit) (k : string) (n : node) :
  main E cfg_target w = (r, w') ->
  children w !! k = Some n ->
  k <> manifest_name ->
  k ∈ allowed \/ (is_dir n = false /\ is_pinned n = true) ->
  children w' !! k = Some n.
Proof.
  intros Hmain Hn Hk Hkeep.
  assert (stays k n = true) as Hst.
  { unfold stays. destruct Hkeep as [?|[_ ->]]; [by rewrite bool_decide_eq_true_2|].
    apply orb_true_r. }
  destruct (main_frame _ _ _ _ _ Hmain)
    as [[_ ->]|(root & article & chosen & _ & [(_ & -> & _)|[(e & Hdl & _)|(recs & w1 & Hdl & Hnorm)]])];
    try done.
  - destruct (download_all_frame _ _ _ _ _ _ Hdl) as [Hmono _]. by apply Hmono.
  - destruct (download_all_frame _ _ _ _ _ _ Hdl) as [Hmono _].
    apply (normalize_frame _ _ _ _ _ _ _ Hnorm); [done|done|]. by apply Hmono.
Qed.

Lemma existing_files_are_kept_witness :
  children (snd (main (Ex.env_of [Ex.sub01] None) "fmri_attention" Ex.cached))
    !! "S4_attention.h5" = Some (File "OLD" false).
Proof.
  apply (existing_files_are_kept (Ex.env_of [Ex.sub01] None) "fmri_attention"
           Ex.cached _ (fst (main (Ex.env_of [Ex.sub01] None) "fmri_attention" Ex.cached))).
  - by destruct (main _ _ _).
  - vm_compute. reflexivity.
  - discriminate.
  - left. vm_compute. set_solver.
Defined.

(** X16: pruning and the manifest come only after every download and
    check: when the second loop raises, [main] ends with that exception in
    the world the loop left, where every child of the start is still there
    unchanged and the manifest path is as it was. *)
Theorem failed_download_prunes_nothing (E : env) (cfg_target root : string) (article : Z)
    (chosen : list entry) (w w1 : world) (e : exn) :
  plan E cfg_target = Some (root, article, chosen) ->
  download_all E root chosen (started article w) = (Raise e, w1) ->
  main E cfg_target w = (Raise e, w1) /\
  (forall k n, children w !! k = Some n -> children w1 !! k = Some n) /\
  children w1 !! manifest_name = children w !! manifest_name.
Proof.
  intros Hplan Hdl.
  destruct (download_all_frame _ _ _ _ _ _ Hdl) as [Hmono Hnew].
  rewrite children_started in Hmono, Hnew.
  split_and!.
  - rewrite (main_plan _ _ _ _ _ _ Hplan). destruct chosen as [|fi rest]; [discriminate|].
    by rewrite (bind_raise _ _ _ _ _ Hdl).
  - done.
  - destruct (plan_chosen _ _ _ _ _ Hplan) as (wanted & files & ->).
    destruct (children w !! manifest_name) as [n|] eqn:Hn; [by apply Hmono|].
    destruct (children w1 !! manifest_name) as [n|] eqn:Hn1; [|done].
    destruct (Hnew _ _ Hn Hn1) as (fi & body & Hin & Heq & _).
    by destruct (chosen_target_allowed _ _ _ Hin) as (_ & ? & _).
Qed.

Lemma failed_download_prunes_nothing_witness :
  main (Ex.env_of [Ex.url_only] None) "fmri_attention" Ex.cluttered =
    (Raise (KeyError "download_url"), started 13474629 Ex.cluttered) /\
  (forall k n, children Ex.cluttered !! k = Some n ->
     children (started 13474629 Ex.cluttered) !! k = Some n) /\
  children (started 13474629 Ex.cluttered) !! manifest_name =
    children Ex.cluttered !! manifest_name.
Proof.
  apply (failed_download_prunes_nothing (Ex.env_of [Ex.url_only] None) "fmri_attention"
           "/data/att" 13474629 [annotate Ex.url_only]).
  - vm_compute. reflexivity.
  - vm_compute. reflexivity.
Defined.

(** X17: a chosen entry that has no [download_url] key stops the run with
    [KeyError('download_url')] when its turn comes: the entries before it
    have been processed and their files stay, nothing else is done. *)
Theorem missing_download_url_stops_the_run (E : env) (cfg_target root : string) (article : Z)
    (pre post : list entry) (fi : entry) (w w1 : world) (recs1 : list manifest_record) :
  plan E cfg_target = Some (root, article, pre ++ fi :: post) ->
  fi !! "download_url" = None ->
  download_all E root pre (started article w) = (Ok recs1, w1) ->
  main E cfg_target w = (Raise (KeyError "download_url"), w1).
Proof.
  intros Hplan Hurl Hpre.
  destruct (plan_chosen _ _ _ _ _ Hplan) as (wanted & files & Hch).
  assert (is_Some (fi !! "name")) as [name Hname].
  { eapply (chosen_target_allowed wanted files). rewrite <- Hch. set_solver. }
  rewrite (main_plan _ _ _ _ _ _ Hplan).
  assert (download_all E root (pre ++ fi :: post) (started article w) =
          (Raise (KeyError "download_url"), w1)) as Hdl.
  { clear Hplan Hch. revert recs1 Hpre. generalize (started article w).
    induction pre as [|f pre IH]; intros w0 recs1 Hpre.
    - injection Hpre as <- <-. cbn [app download_all]. rewrite bind_unfold.
      unfold process_file, getitem. by rewrite Hname, Hurl.
    - apply download_all_cons_ok in Hpre as (r & w2 & rs & Hk & Hp & Hrest & ->).
      rewrite <- app_comm_cons. cbn [download_all].
      rewrite <- process_file_spec in Hp by apply Hk.
      rewrite (bind_ok _ _ _ _ _ Hp). by rewrite bind_unfold, (IH _ _ Hrest). }
  destruct (pre ++ fi :: post) as [|x l] eqn:Happ; [by destruct pre|].
  by rewrite (bind_raise _ _ _ _ _ Hdl).
Qed.

Lemma missing_download_url_stops_the_run_witness :
  main (Ex.env_of [Ex.sub01; Ex.url_only] None) "fmri_attention" Ex.fresh =
  (Raise (KeyError "download_url"),
   snd (download_all (Ex.env_of [Ex.sub01; Ex.url_only] None) "/data/att"
          [annotate Ex.sub01] (started 13474629 Ex.fresh))).
Proof.
  apply (missing_download_url_stops_the_run (Ex.env_of [Ex.sub01; Ex.url_only] None)
           "fmri_attention" "/data/att" 13474629 [annotate Ex.sub01] []
           (annotate Ex.url_only) Ex.fresh _
           [ManifestRecord (VStr "sub-01_attention_vc.h5") "/data/att/S4_attention.h5"
              (VStr "S4") (VStr "http://x/1") (VStr "abc") (VStr "md5:BODY1")]).
  - vm_compute. reflexivity.
  - vm_compute. reflexivity.
  - vm_compute. reflexivity.
Defined.

(** ** Running twice *)

Lemma download_all_all_exist (E : env) (root : string) (chosen : list entry) (w : world) :
  Forall keyed chosen ->
  (forall fi, fi ∈ chosen -> is_Some (children w !! target_name fi)) ->
  exists recs lines,
    download_all E root chosen w = (Ok recs, World (fs w) (stdout w ++ lines) (calls w)).
Proof.
  revert w. induction chosen as [|fi rest IH]; intros w Hkeys Hex.
  - exists [], []. cbn. by rewrite app_nil_r, world_eta.
  - apply Forall_cons in Hkeys as [Hk Hkeys].
    destruct (Hex fi) as [n Hn]; [by left|].
    assert (processed E root fi w =
            (Ok (record_of E root fi n),
             World (fs w)
               (stdout w ++ exists_line root fi ::
                  verify_lines E (dget fi "name") (dget fi "md5")
                    (path_join root (target_name fi)) n) (calls w))) as Hp
      by (unfold processed; by rewrite Hn).
    edestruct (IH (World (fs w)
               (stdout w ++ exists_line root fi ::
                  verify_lines E (dget fi "name") (dget fi "md5")
                    (path_join root (target_name fi)) n) (calls w)) Hkeys)
      as (rs & lines & Hrest).
    { intros fj Hfj. apply Hex. by right. }
    eexists _, _. erewrite download_all_cons_run; [|done|exact Hp|exact Hrest].
    cbn [fs stdout calls]. by rewrite <- app_assoc.
Qed.

Lemma main_plan_nonempty (E : env) (cfg_target root : string) (article : Z)
    (chosen : list entry) (w : world) :
  plan E cfg_target = Some (root, article, chosen) -> chosen <> [] ->
  main E cfg_target w =
  (download_all E root chosen ≫= normalize E root article) (started article w).
Proof.
  intros Hplan Hne. rewrite (main_plan _ _ _ _ _ _ Hplan). by destruct chosen.
Qed.

(** X18: [main] is idempotent on its downloads: after a run that found
    matching files and completed, a second run in the world it left, with
    the same environment, completes too, makes no call but the request for
    the catalog (so it downloads nothing), and leaves every child of the
    destination but the manifest as it was. *)
Theorem second_run_downloads_nothing (E : env) (cfg_target root : string) (article : Z)
    (chosen : list entry) (w w' : world) :
  plan E cfg_target = Some (root, article, chosen) ->
  chosen <> [] ->
  main E cfg_target w = (Ok tt, w') ->
  exists w'',
    main E cfg_target w' = (Ok tt, w'') /\
    calls w'' = calls w' ++ [Urlopen (FIGSHARE_API_ARTICLE article)] /\
    fetches (calls w'') = fetches (calls w') /\
    (forall k, k <> manifest_name -> children w'' !! k = children w' !! k).
Proof.
  intros Hplan Hne Hmain.
  destruct (main_ok_inv _ _ _ _ _ _ _ Hplan Hne Hmain) as (recs & w1 & Hdl & Hnorm).
  destruct (plan_chosen _ _ _ _ _ Hplan) as (wanted & files & ->).
  destruct (download_all_ok _ _ _ _ _ _ Hdl) as (Hkeys & _ & _ & Hrec & _).
  destruct (normalize_ok _ _ _ _ _ _ Hnorm)
    as (d & d1 & names & p & lines & Hfs & Hd1 & _ & _ & ->).
  pose proof (children_Some _ _ Hfs) as Hch.
  set (d' := <[manifest_name := File (json_dumps E
                (ManifestDoc article root S_TO_SUB SUB_TO_S recs names)) p]> d1) in *.
  assert (forall k n, k <> manifest_name -> d' !! k = Some n -> stays k n = true) as Hstay.
  { intros k n Hk. unfold d'. rewrite lookup_insert_ne by done. by intros [_ ?]%Hd1. }
  set (w' := World (Some d') (stdout w1 ++ lines) (calls w1)) in *.
  assert (forall fi, fi ∈ choose wanted files -> is_Some (children (started article w') !! target_name fi))
    as Hex.
  { intros fi Hin. destruct (chosen_target_allowed _ _ _ Hin) as (Hal & Hnm & _).
    apply list_elem_of_lookup in Hin as [i Hi].
    destruct (Forall2_lookup_l _ _ _ _ _ Hrec Hi) as (r & _ & n & Hn & _).
    exists n. unfold children, started, w', d'. cbn [fs default from_option id].
    rewrite lookup_insert_ne by done. apply Hd1. rewrite <- Hch.
    split; [done|by apply stays_allowed]. }
  destruct (download_all_all_exist E root _ _ Hkeys Hex) as (recs2 & lines2 & Hdl2).
  set (w2 := World (fs (started article w')) (stdout (started article w') ++ lines2)
               (calls (started article w'))) in *.
  destruct (normalize_succeeds E root article recs2 w2 d') as [w'' Hnorm2]; [done| |].
  { intros n. destruct (normalize_ok_manifest _ _ _ _ _ _ Hnorm) as [text Ht].
    unfold children, w' in Ht. cbn [fs default from_option id] in Ht. rewrite Ht.
    by intros [= <-]. }
  destruct (normalize_ok _ _ _ _ _ _ Hnorm2)
    as (d0 & d2 & names2 & p2 & lines3 & Hfs2 & Hd2 & _ & _ & ->).
  injection Hfs2 as <-.
  eexists. split_and!.
  - rewrite (main_plan_nonempty _ _ _ _ _ _ Hplan Hne).
    rewrite (bind_ok _ _ _ _ _ Hdl2). exact Hnorm2.
  - done.
  - unfold w2, started. cbn [calls]. rewrite fetches_app, fetches_urlopen. lia.
  - intros k Hk. unfold children. cbn [fs default from_option id].
    rewrite lookup_insert_ne by done. apply lookup_eq_of_iff. intros n. rewrite Hd2.
    split; [by intros [? _]|]. intros Hn. split; [done|]. by apply Hstay.
Qed.

Lemma second_run_downloads_nothing_witness :
  exists w'',
    main (Ex.env_of [Ex.sub01] None) "fmri_attention"
      (snd (main (Ex.env_of [Ex.sub01] None) "fmri_attention" Ex.cluttered)) = (Ok tt, w'') /\
    calls w'' =
      calls (snd (main (Ex.env_of [Ex.sub01] None) "fmri_attention" Ex.cluttered)) ++
      [Urlopen (FIGSHARE_API_ARTICLE 13474629)] /\
    fetches (calls w'') =
      fetches (calls (snd (main (Ex.env_of [Ex.sub01] None) "fmri_attention" Ex.cluttered))) /\
    (forall k, k <> manifest_name ->
       children w'' !! k =
       children (snd (main (Ex.env_of [Ex.sub01] None) "fmri_attention" Ex.cluttered)) !! k).
Proof.
  apply (second_run_downloads_nothing (Ex.env_of [Ex.sub01] None) "fmri_attention"
           "/data/att" 13474629 [annotate Ex.sub01] Ex.cluttered).
  - vm_compute. reflexivity.
  - discriminate.
  - vm_compute. reflexivity.
Defined.
